(** * Purchase-pattern analyzer: [PurchaseAnalyzer] of [data_analyzer.py]

    A shallow embedding of the analyzer over an explicit table of rows.

    Conventions of the embedding.
    - A pandas [DataFrame] is a [list] of row records, in row order.
    - Numbers that pandas holds as floats (prices, intervals) are exact
      rationals [Q]; a missing value ([NaN]) is [None].  Comparisons of
      the code are the exact comparisons [Qle_bool] and the like.
    - A Python [str] is a [string]; a character is its code point.
    - [OrderDate] is a calendar date (no time of day); subtraction of two
      dates goes through the day number of the proleptic Gregorian
      calendar, as [Timedelta.days] does.
    - [groupby] visits the distinct keys in ascending key order and skips
      no row: the key columns are strings or integers that are present in
      every row. *)

From Stdlib Require Import ZArith QArith Qround List Bool Ascii String Lia Lqa.
From Stdlib Require Import DecimalString Permutation Sorted OrdersEx.
Import ListNotations.

Local Open Scope Z_scope.

(* ================================================================== *)
(** * Text helpers used by the price repair *)

Module Text.

(** [c] is one of the characters ["0"] .. ["9"]: what [\d] matches among
    the characters a [string] holds (code points below 256).  Decimal
    digits of other scripts, which [\d] also matches, are outside the
    texts of this development; the statements on the price repair are
    about ASCII texts. *)
Definition is_digit (c : ascii) : bool :=
  let n := N_of_ascii c in (48 <=? n)%N && (n <=? 57)%N.

Definition is_dot (c : ascii) : bool := Ascii.eqb c "."%char.

Definition digit_value (c : ascii) : Z := Z.of_N (N_of_ascii c) - 48.

(** [s.split('.')[0]]: the text before the first ["."], the whole text
    when there is none. *)
Fixpoint before_first_dot (s : string) : string :=
  match s with
  | EmptyString => EmptyString
  | String c rest =>
      if is_dot c then EmptyString else String c (before_first_dot rest)
  end.

(** The text after the first ["."], [None] when there is none. *)
Fixpoint after_first_dot (s : string) : option string :=
  match s with
  | EmptyString => None
  | String c rest => if is_dot c then Some rest else after_first_dot rest
  end.

(** [re.sub(r'[^\d.]', '', s)]: keep digits and dots, drop the rest. *)
Fixpoint keep_digits_dots (s : string) : string :=
  match s with
  | EmptyString => EmptyString
  | String c rest =>
      if is_digit c || is_dot c
      then String c (keep_digits_dots rest)
      else keep_digits_dots rest
  end.

Fixpoint all_digits (s : string) : bool :=
  match s with
  | EmptyString => true
  | String c rest => is_digit c && all_digits rest
  end.

(** Value of a string of decimal digits read left to right, starting
    from the accumulator [acc]. *)
Fixpoint digits_from (acc : Z) (s : string) : Z :=
  match s with
  | EmptyString => acc
  | String c rest => digits_from (10 * acc + digit_value c) rest
  end.

Definition digits_to_Z (s : string) : Z := digits_from 0 s.

(** The digits of the text that stand before its first ["."]. *)
Fixpoint integer_digits (s : string) : string :=
  match s with
  | EmptyString => EmptyString
  | String c rest =>
      if is_dot c then EmptyString
      else if is_digit c then String c (integer_digits rest)
      else integer_digits rest
  end.

(** Every character of the text is an ASCII character. *)
Fixpoint is_ascii_text (s : string) : bool :=
  match s with
  | EmptyString => true
  | String c rest => (N_of_ascii c <? 128)%N && is_ascii_text rest
  end.

(** [pd.to_numeric(s, errors='coerce')] on a text made of digits and
    dots only: an integer part, optionally a ["."] and a fractional
    part; at least one digit overall.  Anything else is [NaN].  The
    value is the exact number the text writes, which is the float the
    library answers as long as the text has at most 15 digits; the
    statements on the price repair carry that bound. *)
Definition to_numeric (s : string) : option Q :=
  let ip := before_first_dot s in
  match after_first_dot s with
  | None =>
      if all_digits ip && negb (String.eqb ip "")
      then Some (inject_Z (digits_to_Z ip))
      else None
  | Some fp =>
      if all_digits ip && all_digits fp
         && negb (String.eqb ip "" && String.eqb fp "")
      then Some (Qplus (inject_Z (digits_to_Z ip))
                       (Qmake (digits_to_Z fp)
                              (Pos.pow 10 (Pos.of_nat (String.length fp)))))
      else None
  end.

End Text.

(* ================================================================== *)
(** * Calendar dates *)

Record Date := mkDate { year : Z; month : Z; day : Z }.

(** Day number of a date of the proleptic Gregorian calendar, counted
    from 1970-01-01; the difference of two day numbers is what
    [(d2 - d1).days] computes. *)
Definition day_number (d : Date) : Z :=
  let y := if month d <=? 2 then year d - 1 else year d in
  let era := y / 400 in
  let yoe := y - era * 400 in
  let mp := if 2 <? month d then month d - 3 else month d + 9 in
  let doy := (153 * mp + 2) / 5 + day d - 1 in
  let doe := yoe * 365 + yoe / 4 - yoe / 100 + doy in
  era * 146097 + doe - 719468.

Definition date_leb (a b : Date) : bool := day_number a <=? day_number b.

Definition date_min (a b : Date) : Date := if date_leb a b then a else b.
Definition date_max (a b : Date) : Date := if date_leb a b then b else a.

(** The months [pd.to_datetime] can produce. *)
Definition valid_month (d : Date) : Prop := 1 <= month d <= 12.

(* ================================================================== *)
(** * Tables *)

(** A row of the CSV file as [read_csv] and [pd.to_datetime] deliver it.
    [TotalPrice] is the column after [astype(str)]. *)
Record RawRow := mkRawRow {
  raw_CustomerID : string;
  raw_OrderID    : string;
  raw_ItemName   : string;
  raw_Category   : string;
  raw_OrderDate  : Date;
  raw_Quantity   : Z;
  raw_BasePrice  : option Q;
  raw_TotalPrice : string
}.

(** A row of [self.df] after [process_data]. *)
Record Row := mkRow {
  CustomerID : string;
  OrderID    : string;
  ItemName   : string;
  Category   : string;
  OrderDate  : Date;
  Quantity   : Z;
  BasePrice  : option Q;
  TotalPrice : string;
  Month      : Z;
  Year       : Z;
  CleanPrice : option Q
}.

Definition DataFrame := list Row.

(** [Series.fillna(other)]: a missing value is replaced by the value of
    the other column in the same row. *)
Definition fillna {A} (x other : option A) : option A :=
  match x with
  | Some v => Some v
  | None => other
  end.

(** The two assignments to [CleanPrice] before the [fillna]. *)
Definition repair_price (total_price : string) : option Q :=
  Text.to_numeric (Text.keep_digits_dots (Text.before_first_dot total_price)).

Definition process_row (r : RawRow) : Row :=
  {| CustomerID := raw_CustomerID r;
     OrderID    := raw_OrderID r;
     ItemName   := raw_ItemName r;
     Category   := raw_Category r;
     OrderDate  := raw_OrderDate r;
     Quantity   := raw_Quantity r;
     BasePrice  := raw_BasePrice r;
     TotalPrice := raw_TotalPrice r;
     Month      := month (raw_OrderDate r);
     Year       := year (raw_OrderDate r);
     CleanPrice := fillna (repair_price (raw_TotalPrice r)) (raw_BasePrice r) |}.

Definition process_data (raw : list RawRow) : DataFrame := map process_row raw.

(* ================================================================== *)
(** * Column operations of the data-frame library *)

Section Columns.

Context {A K : Type}.
Variable keq : K -> K -> bool.

(** [Series.unique()]: the distinct values, in order of first
    appearance. *)
Fixpoint unique (l : list K) : list K :=
  match l with
  | [] => []
  | x :: rest => x :: filter (fun y => negb (keq x y)) (unique rest)
  end.

(** Stable insertion sort by the order [le]: among elements that
    compare equal the earlier one stays first, as [sort_values] and
    the sorted [groupby] do. *)
Fixpoint insert_by (le : A -> A -> bool) (x : A) (l : list A) : list A :=
  match l with
  | [] => [x]
  | y :: rest => if le x y then x :: y :: rest else y :: insert_by le x rest
  end.

Fixpoint sort_by (le : A -> A -> bool) (l : list A) : list A :=
  match l with
  | [] => []
  | x :: rest => insert_by le x (sort_by le rest)
  end.

End Columns.

Section GroupBy.

Context {A K : Type}.
Variable keq : K -> K -> bool.
Variable kle : K -> K -> bool.

(** [df.groupby(key)]: one group per distinct key, keys ascending,
    each group holding its rows in table order.  The library leaves out
    the rows whose key cell is missing; the rows of this development
    have no missing key cell. *)
Definition groupby (key : A -> K) (df : list A) : list (K * list A) :=
  map (fun k => (k, filter (fun r => keq (key r) k) df))
      (sort_by kle (unique keq (map key df))).

End GroupBy.

(** Sum of a float column, missing values skipped. *)
Definition sum_skipna (l : list (option Q)) : Q :=
  fold_right (fun x acc => match x with Some q => Qplus q acc | None => acc end)
             (0 # 1)%Q l.

(** The values of a float column that are present. *)
Definition dropna (l : list (option Q)) : list Q :=
  flat_map (fun x => match x with Some q => [q] | None => [] end) l.

(** Mean of a float column, missing values skipped; [NaN] when no value
    is present. *)
Definition mean_skipna (l : list (option Q)) : option Q :=
  match dropna l with
  | [] => None
  | q :: rest =>
      Some (Qdiv (sum_skipna l) (inject_Z (Z.of_nat (List.length (q :: rest)))))
  end.

(** Earliest and latest date of a column; [NaT] ([None]) on an empty
    column. *)
Definition min_date (l : list Date) : option Date :=
  match l with
  | [] => None
  | d :: rest => Some (fold_left date_min rest d)
  end.

Definition max_date (l : list Date) : option Date :=
  match l with
  | [] => None
  | d :: rest => Some (fold_left date_max rest d)
  end.

(** [(last - first).dt.days]. *)
Definition days_between (last first : option Date) : option Z :=
  match last, first with
  | Some l, Some f => Some (day_number l - day_number f)
  | _, _ => None
  end.

(** Division of an integer column by an integer column, as floats:
    [0 / 0] is [NaN].  A non-zero numerator over [0] (an infinity in the
    library) is not represented; [days_span_of_single] below shows that
    the analyzer never divides a non-zero span by zero. *)
Definition true_divide (a : option Z) (b : Z) : option Q :=
  match a with
  | Some n => if b =? 0 then None else Some (Qdiv (inject_Z n) (inject_Z b))
  | None => None
  end.

(** What a sum of 64-bit integers holds: the sum itself inside the range
    of [int64], the wrapped value outside. *)
Definition wrap_int64 (z : Z) : Z := (z + 2 ^ 63) mod 2 ^ 64 - 2 ^ 63.

(** Rounding to the nearest integer, ties to even. *)
Definition round_half_even (q : Q) : Z :=
  let f := Qfloor q in
  match Qcompare (Qminus q (inject_Z f)) (1 # 2)%Q with
  | Lt => f
  | Gt => f + 1
  | Eq => if Z.even f then f else f + 1
  end.

(** [round(x, 1)] and [round(x, 2)]. *)
Definition round1 (q : Q) : Q := Qmake (round_half_even (Qmult q (10 # 1)%Q)) 10.
Definition round2 (q : Q) : Q := Qmake (round_half_even (Qmult q (100 # 1)%Q)) 100.

(** Key orders of the sorted [groupby]. *)
Definition str_leb (a b : string) : bool :=
  match String.compare a b with Gt => false | _ => true end.

Definition product_key_eqb (a b : string * string) : bool :=
  String.eqb (fst a) (fst b) && String.eqb (snd a) (snd b).

Definition product_key_leb (a b : string * string) : bool :=
  match String.compare (fst a) (fst b) with
  | Lt => true
  | Gt => false
  | Eq => str_leb (snd a) (snd b)
  end.

Definition month_key_eqb (a b : Z * string) : bool :=
  (fst a =? fst b) && String.eqb (snd a) (snd b).

Definition month_key_leb (a b : Z * string) : bool :=
  match Z.compare (fst a) (fst b) with
  | Lt => true
  | Gt => false
  | Eq => str_leb (snd a) (snd b)
  end.

(* ================================================================== *)
(** * The analyzer *)

(** A row of the table [product_analysis]. *)
Record ProductAnalysis := mkProductAnalysis {
  pa_ItemName    : string;
  pa_Category    : string;
  purchase_count : Z;
  first_purchase : option Date;
  last_purchase  : option Date;
  avg_price      : option Q;
  total_quantity : Z;
  days_span      : option Z;
  avg_interval   : Q
}.

(** An entry of the bucket list. *)
Module Entry.
Record t := mk {
  item : string;
  category : string;
  purchase_count : Z;
  avg_interval_days : Q;
  avg_price : option Q;
  recommendation_reason : string
}.
End Entry.

(** A record of the spending summary. *)
Module Summary.
Record t := mk {
  Category : string;
  total_spent : Q;
  num_orders : Z;
  num_items : Z
}.
End Summary.

(** A record of the monthly trends. *)
Module Trend.
Record t := mk {
  Month : Z;
  Category : string;
  CleanPrice : Q
}.
End Trend.

(** Truth value of an optional argument in [if month:] and
    [if category:]: [None], [0] and the empty text are false. *)
Definition truthy_int (m : option Z) : bool :=
  match m with
  | Some v => negb (v =? 0)
  | None => false
  end.

Definition truthy_str (c : option string) : bool :=
  match c with
  | Some v => negb (String.eqb v "")
  | None => false
  end.

Definition rows_of_user (df : DataFrame) (user_id : string) : DataFrame :=
  filter (fun r => String.eqb (CustomerID r) user_id) df.

Definition filter_month (month : option Z) (user_data : DataFrame) : DataFrame :=
  match month with
  | Some m =>
      if truthy_int month
      then filter (fun r => Month r =? m) user_data
      else user_data
  | None => user_data
  end.

Definition filter_category (category : option string) (user_data : DataFrame)
  : DataFrame :=
  match category with
  | Some c =>
      if truthy_str category
      then filter (fun r => String.eqb (Category r) c) user_data
      else user_data
  | None => user_data
  end.

Definition get_user_purchases (df : DataFrame) (user_id : string)
    (month : option Z) (category : option string) : list Row :=
  let user_data := rows_of_user df user_id in
  let user_data := filter_month month user_data in
  let user_data := filter_category category user_data in
  user_data.

(** The aggregate of one (item, category) group, with the two derived
    columns. *)
Definition analyze_group (kg : (string * string) * list Row) : ProductAnalysis :=
  let (k, g) := kg in
  let count := Z.of_nat (List.length g) in
  let first := min_date (map OrderDate g) in
  let last := max_date (map OrderDate g) in
  let span := days_between last first in
  {| pa_ItemName := fst k;
     pa_Category := snd k;
     purchase_count := count;
     first_purchase := first;
     last_purchase := last;
     avg_price := option_map round2 (mean_skipna (map CleanPrice g));
     total_quantity := wrap_int64 (fold_right Z.add 0 (map Quantity g));
     days_span := span;
     avg_interval :=
       match true_divide span (count - 1) with
       | Some q => q
       | None => (0 # 1)%Q
       end |}.

Definition analyze_purchase_patterns (df : DataFrame) (user_id : string)
  : list ProductAnalysis :=
  let user_data := rows_of_user df user_id in
  map analyze_group
      (groupby product_key_eqb product_key_leb
               (fun r => (ItemName r, Category r)) user_data).

(** The boolean mask of [generate_recommendations]. *)
Definition regular_pattern (min_purchases : Z) (target_interval_days : Q)
    (a : ProductAnalysis) : bool :=
  (min_purchases <=? purchase_count a)
  && negb (Qle_bool (avg_interval a) (0 # 1)%Q)
  && Qle_bool (avg_interval a) (Qmult target_interval_days (3 # 2)%Q)
  && Qle_bool (Qmult target_interval_days (1 # 2)%Q) (avg_interval a).

(** The order of [sort_values(['purchase_count', 'avg_interval'],
    ascending=[False, True])]. *)
Definition rank_leb (a b : ProductAnalysis) : bool :=
  (purchase_count b <? purchase_count a)
  || ((purchase_count a =? purchase_count b)
      && Qle_bool (avg_interval a) (avg_interval b)).

Definition string_of_Z (z : Z) : string := NilZero.string_of_int (Z.to_int z).

(** Text of a float that has one decimal, given as [tenths / 10]. *)
Definition string_of_tenths (tenths : Z) : string :=
  let sign := if tenths <? 0 then "-"%string else ""%string in
  let n := Z.abs tenths in
  (sign ++ string_of_Z (n / 10) ++ "." ++ string_of_Z (n mod 10))%string.

Definition make_entry (row : ProductAnalysis) : Entry.t :=
  {| Entry.item := pa_ItemName row;
     Entry.category := pa_Category row;
     Entry.purchase_count := purchase_count row;
     Entry.avg_interval_days := round1 (avg_interval row);
     Entry.avg_price := option_map round2 (avg_price row);
     Entry.recommendation_reason :=
       ("Purchased " ++ string_of_Z (purchase_count row)
        ++ " times, avg every "
        ++ string_of_tenths (Qnum (round1 (avg_interval row)))
        ++ " days")%string |}.

(** The filtered table, before sorting. *)
Definition regular_rows (df : DataFrame) (user_id : string)
    (min_purchases : Z) (target_interval_days : Q) : list ProductAnalysis :=
  filter (regular_pattern min_purchases target_interval_days)
         (analyze_purchase_patterns df user_id).

(** The filtered table, sorted. *)
Definition ranked_rows (df : DataFrame) (user_id : string)
    (min_purchases : Z) (target_interval_days : Q) : list ProductAnalysis :=
  sort_by rank_leb (regular_rows df user_id min_purchases target_interval_days).

Definition generate_recommendations (df : DataFrame) (user_id : string)
    (min_purchases : Z) (target_interval_days : Q) : list Entry.t :=
  let recommendations := ranked_rows df user_id min_purchases target_interval_days in
  let bucket_list := map make_entry recommendations in
  firstn 15 bucket_list.

Definition summarize_group (kg : string * list Row) : Summary.t :=
  let (k, g) := kg in
  {| Summary.Category := k;
     Summary.total_spent := round2 (sum_skipna (map CleanPrice g));
     Summary.num_orders := Z.of_nat (List.length (unique String.eqb (map OrderID g)));
     Summary.num_items := Z.of_nat (List.length g) |}.

Definition get_spending_summary (df : DataFrame) (user_id : string)
    (month : option Z) : list Summary.t :=
  let user_data := rows_of_user df user_id in
  let user_data := filter_month month user_data in
  map summarize_group (groupby String.eqb str_leb Category user_data).

Definition trend_group (kg : (Z * string) * list Row) : Trend.t :=
  let (k, g) := kg in
  {| Trend.Month := fst k;
     Trend.Category := snd k;
     Trend.CleanPrice := round2 (sum_skipna (map CleanPrice g)) |}.

Definition get_monthly_trends (df : DataFrame) (user_id : string) : list Trend.t :=
  let user_data := rows_of_user df user_id in
  map trend_group
      (groupby month_key_eqb month_key_leb
               (fun r => (Month r, Category r)) user_data).

(** The order of the ranked table as a relation: more purchases first,
    then the shorter interval. *)
Definition rank_le (a b : ProductAnalysis) : Prop :=
  purchase_count b < purchase_count a
  \/ (purchase_count a = purchase_count b
      /\ (avg_interval a <= avg_interval b)%Q).

(** The same order on the entries of the bucket list. *)
Definition entry_le (a b : Entry.t) : Prop :=
  Entry.purchase_count b < Entry.purchase_count a
  \/ (Entry.purchase_count a = Entry.purchase_count b
      /\ (Entry.avg_interval_days a <= Entry.avg_interval_days b)%Q).



(** A clean price that is present and is a whole number, not negative:
    what the price repair gives for a text with a digit before its first
    decimal point.  Floats add and round such amounts exactly as long as
    the sums stay below 2^46. *)
Definition whole_price (r : Row) : Prop :=
  exists z : Z, 0 <= z /\ CleanPrice r = Some (inject_Z z).



(* ================================================================== *)
(** * Example tables *)

Module Examples.

Local Open Scope string_scope.

Definition raw (customer order item category : string) (d : Date)
    (quantity : Z) (base : option Q) (total : string) : RawRow :=
  mkRawRow customer order item category d quantity base total.

(** A row whose total price carries a corrupted suffix. *)
Definition corrupted_row : RawRow :=
  raw "C001" "O1" "Milk" "Dairy" (mkDate 2024 1 5) 1 (Some (1999 # 100)%Q)
      "19.99123".

Definition bought (customer item category : string) (d : Date) : Row :=
  process_row (raw customer "O1" item category d 1 (Some (5 # 2)%Q) "2.50").

(** [n + 1] purchases of one product: one on [first], [n] on [last]. *)
Definition purchases (customer item category : string) (first last : Date)
    (n : nat) : DataFrame :=
  bought customer item category first
  :: repeat (bought customer item category last) n.

(** Customer C001 buys Bread twice 15 days apart, Coffee 11 times over
    149 days, Soap twice 45 days apart and Tea 11 times over 451 days;
    customer C002 buys Bread once. *)
Definition boundary_table : DataFrame :=
  (purchases "C001" "Bread" "Bakery" (mkDate 2024 1 1) (mkDate 2024 1 16) 1
   ++ purchases "C001" "Coffee" "Drinks" (mkDate 2024 1 1) (mkDate 2024 5 29) 10
   ++ purchases "C001" "Soap" "Home" (mkDate 2024 1 1) (mkDate 2024 2 15) 1
   ++ purchases "C001" "Tea" "Drinks" (mkDate 2024 1 1) (mkDate 2025 3 27) 10
   ++ purchases "C002" "Bread" "Bakery" (mkDate 2024 3 1) (mkDate 2024 3 1) 0)%list.


(** The row of Bread in the product analysis of customer C001 and its
    entry in the bucket list. *)
Definition bread_analysis : ProductAnalysis :=
  {| pa_ItemName := "Bread";
     pa_Category := "Bakery";
     purchase_count := 2;
     first_purchase := Some (mkDate 2024 1 1);
     last_purchase := Some (mkDate 2024 1 16);
     avg_price := Some (200 # 100)%Q;
     total_quantity := 2;
     days_span := Some 15;
     avg_interval := (15 # 1)%Q |}.

Definition bread_entry : Entry.t := make_entry bread_analysis.

End Examples.

(* ================================================================== *)
(** * Listings of the analyzer *)



(** Strictly ascending order of texts. *)
Definition str_lt (a b : string) : Prop := String.compare a b = Lt.

(** The month numbers of the calendar. *)
Definition calendar_months : list Z := [1; 2; 3; 4; 5; 6; 7; 8; 9; 10; 11; 12].







(* ================================================================== *)
(** * The bucket-list endpoint of [app.py]

    [user_bucket_lists] is the dictionary from customer ids to the saved
    lists; a request body is the value [request.get_json()] delivers.
    A JSON object is the list of its members, each key once.  The text
    of an exception in an error answer is not represented. *)

Module Api.

#[local] Set Warnings "-register-all".

Inductive json : Type :=
| JNull
| JBool (b : bool)
| JNum (q : Q)
| JStr (s : string)
| JArr (items : list json)
| JObj (members : list (string * json)).

(** [d.get(k)] on a dictionary held as the list of its items. *)
Fixpoint dict_get {V : Type} (k : string) (d : list (string * V)) : option V :=
  match d with
  | [] => None
  | (k', v) :: rest => if String.eqb k k' then Some v else dict_get k rest
  end.

(** [d[k] = v]. *)
Fixpoint dict_set {V : Type} (k : string) (v : V) (d : list (string * V))
  : list (string * V) :=
  match d with
  | [] => [(k, v)]
  | (k', v') :: rest =>
      if String.eqb k k' then (k, v) :: rest else (k', v') :: dict_set k v rest
  end.

(** Truth value of a JSON value in [not custom_list]. *)
Definition truthy (v : json) : bool :=
  match v with
  | JNull => false
  | JBool b => b
  | JNum q => negb (Qeq_bool q 0)
  | JStr s => negb (String.eqb s "")
  | JArr items => match items with [] => false | _ :: _ => true end
  | JObj members => match members with [] => false | _ :: _ => true end
  end.

(** [isinstance(item, dict) and 'item' in item]. *)
Definition is_valid_item (item : json) : bool :=
  match item with
  | JObj members => existsb (fun kv => String.eqb (fst kv) "item") members
  | _ => false
  end.

(** The values [for item in bucket_list] visits; [None] when the value
    cannot be iterated ([TypeError]).  A dictionary yields its keys, a
    text its characters. *)
Definition iterate (v : json) : option (list json) :=
  match v with
  | JArr items => Some items
  | JObj members => Some (map (fun kv => JStr (fst kv)) members)
  | JStr s => Some (map (fun c => JStr (String c EmptyString)) (list_ascii_of_string s))
  | _ => None
  end.

Definition store := list (string * json).

Inductive post_response : Type :=
| Updated (user_id : string) (bucket_list : json) (count : Z)
| InvalidFormat
| PostError.

Inductive get_response : Type :=
| AiGenerated (user_id : string) (bucket_list : list Entry.t)
| StoredList (user_id : string) (bucket_list : json) (type : string).

(** The [POST] branch of [manage_bucket_list]: the new dictionary and
    the answer.  A body that is no object has no [get]; the exception
    is answered with status 400. *)
Definition post_bucket_list (user_bucket_lists : store) (user_id : string)
    (data : option json) : store * post_response :=
  match data with
  | Some (JObj members) =>
      let bucket_list :=
        match dict_get "bucket_list" members with
        | Some v => v
        | None => JArr []
        end in
      match iterate bucket_list with
      | Some items =>
          if forallb is_valid_item items
          then (dict_set user_id bucket_list user_bucket_lists,
                Updated user_id bucket_list (Z.of_nat (List.length items)))
          else (user_bucket_lists, InvalidFormat)
      | None => (user_bucket_lists, PostError)
      end
  | _ => (user_bucket_lists, PostError)
  end.

(** What the endpoint has of the analyzer: the call
    [analyzer.generate_recommendations(user_id)], which answers [None]
    when it raises. *)
Definition Analyzer := string -> option (list Entry.t).

(** The analyzer built from a table: its call is
    [generate_recommendations] with the default thresholds. *)
Definition analyzer_of (df : DataFrame) : Analyzer :=
  fun user_id => Some (generate_recommendations df user_id 2 (30 # 1)).

(** The [GET] branch of [manage_bucket_list]; [analyzer] is [None] when
    the analyzer could not be built at start.  When the call of the
    analyzer raises, the [except] clause lets the answer fall through to
    the saved list. *)
Definition get_bucket_list (analyzer : option Analyzer)
    (user_bucket_lists : store) (user_id : string) : get_response :=
  let custom_list :=
    match dict_get user_id user_bucket_lists with
    | Some v => v
    | None => JArr []
    end in
  let saved :=
    StoredList user_id custom_list
               (if truthy custom_list then "custom" else "empty") in
  if negb (truthy custom_list)
  then
    match analyzer with
    | Some call =>
        match call user_id with
        | Some recommendations => AiGenerated user_id recommendations
        | None => saved
        end
    | None => saved
    end
  else saved.

End Api.

(* ================================================================== *)
(** * The saved shopping list of [dashboard.py]

    The list is the value of the key [items] of the JSON text the
    callbacks pass along; it is held here as the parsed list, empty
    when the text is absent or cannot be read.  [recommendations] is
    what the recommendations request answered. *)

Module Dashboard.

Record SavedItem := mkSavedItem {
  name : string;
  category : string;
  price : option Q;
  reason : string
}.

Definition item_of_recommendation (rec : Entry.t) : SavedItem :=
  {| name := Entry.item rec;
     category := Entry.category rec;
     price := Entry.avg_price rec;
     reason := Entry.recommendation_reason rec |}.

(** The loop over [enumerate(checkbox_values)]: the recommendation at a
    ticked position, as long as the position is within the list. *)
Fixpoint selected_items (checkbox_values : list bool)
    (recommendations : list Entry.t) : list SavedItem :=
  match checkbox_values, recommendations with
  | is_selected :: values, rec :: recs =>
      if is_selected
      then item_of_recommendation rec :: selected_items values recs
      else selected_items values recs
  | _, _ => []
  end.

(** The loop that appends the selected items whose name is not among
    the names saved before. *)
Definition add_selected (current_saved selected : list SavedItem)
  : list SavedItem :=
  let existing_names := map name current_saved in
  current_saved
  ++ filter (fun item => negb (existsb (String.eqb (name item)) existing_names))
            selected.

(** [save_selected_items]: [None] is [dash.no_update]; otherwise the new
    list and the number of selected items the status message reports
    (0 gives the warning). *)
Definition save_selected_items (n_clicks : option Z) (checkbox_values : list bool)
    (user_id : option string) (current_saved : list SavedItem)
    (recommendations : list Entry.t) : option (list SavedItem * nat) :=
  if negb (truthy_int n_clicks) || negb (truthy_str user_id) then None
  else
    let selected := selected_items checkbox_values recommendations in
    Some (add_selected current_saved selected, List.length selected).

(** [list.pop(index)] for an index within the list. *)
Fixpoint pop (index : nat) (l : list SavedItem) : list SavedItem :=
  match l with
  | [] => []
  | x :: rest =>
      match index with
      | O => rest
      | S i => x :: pop i rest
      end
  end.

(** [remove_saved_item]; [current_saved] is [None] when there is no
    JSON text or it cannot be read, [index_to_remove] the index of the
    button that was clicked. *)
Definition remove_saved_item (n_clicks_list : list (option Z))
    (index_to_remove : Z) (current_saved : option (list SavedItem))
  : option (list SavedItem) :=
  if negb (existsb truthy_int n_clicks_list) then None
  else
    match current_saved with
    | None => None
    | Some items =>
        if (0 <=? index_to_remove)
           && (index_to_remove <? Z.of_nat (List.length items))
        then Some (pop (Z.to_nat index_to_remove) items)
        else Some items
    end.

End Dashboard.

(* ================================================================== *)
(** * The metrics cards of [dashboard.py]

    The purchases are the records the purchases request answered; a
    clean price that is [NaN] is [None] and stays [NaN] through
    [or 0], sums and comparisons. *)

Module Metrics.

(** Addition and comparison of floats that may be [NaN]. *)
Definition fadd (a b : option Q) : option Q :=
  match a, b with
  | Some x, Some y => Some (Qplus x y)
  | _, _ => None
  end.

Definition fgt (a b : option Q) : bool :=
  match a, b with
  | Some x, Some y => negb (Qle_bool x y)
  | _, _ => false
  end.

(** [sum([p.get('CleanPrice', 0) or 0 for p in purchases])]. *)
Definition total_spent (purchases : list Row) : option Q :=
  fold_left fadd (map CleanPrice purchases) (Some (0 # 1)%Q).

(** The loop that fills the dictionary [categories]. *)
Definition add_purchase (categories : list (string * option Q)) (p : Row)
  : list (string * option Q) :=
  let so_far :=
    match Api.dict_get (Category p) categories with
    | Some v => v
    | None => Some (0 # 1)%Q
    end in
  Api.dict_set (Category p) (fadd so_far (CleanPrice p)) categories.

Definition category_totals (purchases : list Row) : list (string * option Q) :=
  fold_left add_purchase purchases [].

(** [max(items, key=lambda x: x[1])]: the first item that no later item
    exceeds. *)
Definition max_by_amount (first : string * option Q)
    (rest : list (string * option Q)) : string * option Q :=
  fold_left (fun best item => if fgt (snd item) (snd best) then item else best)
            rest first.

Definition top_category (purchases : list Row) : string :=
  match category_totals purchases with
  | [] => "None"
  | first :: rest => fst (max_by_amount first rest)
  end.

End Metrics.

(* ================================================================== *)
(** * Properties *)

(** ** Price repair *)

Module PriceRepair.

Import Text.

Lemma digit_is_not_dot (c : ascii) : is_digit c = true -> is_dot c = false.
Proof.
  destruct c as [[] [] [] [] [] [] [] []]; vm_compute; congruence.
Qed.

Lemma keep_before_dot (s : string) :
  keep_digits_dots (before_first_dot s) = integer_digits s.
Proof.
  induction s as [|c rest IH]; simpl; [reflexivity|].
  destruct (is_dot c) eqn:Hdot; simpl; [reflexivity|].
  rewrite Hdot, orb_false_r.
  destruct (is_digit c); now rewrite IH.
Qed.

Lemma integer_digits_all_digits (s : string) :
  all_digits (integer_digits s) = true.
Proof.
  induction s as [|c rest IH]; simpl; [reflexivity|].
  destruct (is_dot c); [reflexivity|].
  destruct (is_digit c) eqn:Hd; simpl; [now rewrite Hd|assumption].
Qed.

Lemma all_digits_no_dot (s : string) :
  all_digits s = true ->
  after_first_dot s = None /\ before_first_dot s = s.
Proof.
  induction s as [|c rest IH]; simpl; [now split|].
  intros H. apply andb_true_iff in H as [Hc Hrest].
  rewrite (digit_is_not_dot c Hc).
  destruct (IH Hrest) as [-> ->]. now split.
Qed.

(** On a text of digits only, [to_numeric] reads a whole number. *)
Lemma to_numeric_digits (s : string) :
  all_digits s = true ->
  to_numeric s =
    if String.eqb s "" then None else Some (inject_Z (digits_to_Z s)).
Proof.
  intros H. unfold to_numeric.
  destruct (all_digits_no_dot s H) as [-> ->].
  rewrite H. simpl. now destruct (String.eqb s "").
Qed.

Lemma repair_price_integer (s : string) :
  repair_price s =
    if String.eqb (integer_digits s) ""
    then None
    else Some (inject_Z (digits_to_Z (integer_digits s))).
Proof.
  unfold repair_price. rewrite keep_before_dot.
  apply to_numeric_digits, integer_digits_all_digits.
Qed.

(** The repaired price is a whole number whenever it exists. *)
Lemma repair_price_whole (s : string) (q : Q) :
  repair_price s = Some q -> exists z, q = inject_Z z.
Proof.
  rewrite repair_price_integer.
  destruct (String.eqb (integer_digits s) ""); [discriminate|].
  intros [= <-]. eauto.
Qed.

Lemma digit_bounds (c : ascii) : is_digit c = true -> 0 <= digit_value c <= 9.
Proof.
  unfold is_digit, digit_value. intros H.
  apply andb_true_iff in H as [H1 H2].
  apply N.leb_le, N2Z.inj_le in H1. apply N.leb_le, N2Z.inj_le in H2.
  change (Z.of_N 48) with 48 in H1. change (Z.of_N 57) with 57 in H2. lia.
Qed.

Lemma digits_from_bounds (s : string) (acc : Z) :
  all_digits s = true -> 0 <= acc ->
  10 ^ Z.of_nat (String.length s) * acc <= digits_from acc s
  /\ digits_from acc s < 10 ^ Z.of_nat (String.length s) * (acc + 1).
Proof.
  revert acc.
  induction s as [|c s IH];
    cbn [digits_from all_digits String.length]; intros acc H Hacc.
  - change (10 ^ Z.of_nat 0) with 1. lia.
  - apply andb_true_iff in H as [Hc Hs].
    pose proof (digit_bounds c Hc) as Hd.
    destruct (IH (10 * acc + digit_value c) Hs ltac:(lia)) as [Hlo Hhi].
    rewrite Nat2Z.inj_succ, Z.pow_succ_r by lia.
    assert (Hpow : 0 < 10 ^ Z.of_nat (String.length s))
      by (apply Z.pow_pos_nonneg; lia).
    split; nia.
Qed.

(** A run of at most 15 digits writes a whole number below 10^15, which
    a float holds exactly. *)
Lemma digits_to_Z_small (s : string) :
  all_digits s = true -> (String.length s <= 15)%nat ->
  0 <= digits_to_Z s < 10 ^ 15.
Proof.
  intros H Hlen. unfold digits_to_Z.
  destruct (digits_from_bounds s 0 H ltac:(lia)) as [Hlo Hhi].
  assert (Hmono : 10 ^ Z.of_nat (String.length s) <= 10 ^ 15)
    by (apply Z.pow_le_mono_r; lia).
  lia.
Qed.

(** C1, as the code has it: for a total-price text of ASCII characters
    with at most 15 digits before its first decimal point, the price
    repair keeps the text before the first decimal point, drops every
    character of it that is not a digit and reads the rest as a whole
    number (below 10^15, so the float is that number); when no digit is
    left the clean price is the base price.  The total-price text
    "19.99123" gives the clean price 19, whatever the other columns
    hold. *)
Theorem clean_price_is_integer_part :
  (forall r : RawRow,
      is_ascii_text (raw_TotalPrice r) = true ->
      (String.length (integer_digits (raw_TotalPrice r)) <= 15)%nat ->
      CleanPrice (process_row r) =
        (if String.eqb (integer_digits (raw_TotalPrice r)) ""
         then raw_BasePrice r
         else Some (inject_Z (digits_to_Z (integer_digits (raw_TotalPrice r)))))
      /\ 0 <= digits_to_Z (integer_digits (raw_TotalPrice r)) < 10 ^ 15)
  /\ (forall customer order item category d quantity base,
        CleanPrice (process_row
                      (mkRawRow customer order item category d quantity base
                                "19.99123"))
        = Some (inject_Z 19)).
Proof.
  split.
  - intros r _ Hlen. split.
    + unfold process_row; simpl. rewrite repair_price_integer.
      now destruct (String.eqb (integer_digits (raw_TotalPrice r)) "").
    + apply digits_to_Z_small; [apply integer_digits_all_digits|exact Hlen].
  - intros. reflexivity.
Qed.

Lemma clean_price_is_integer_part_witness :
  is_ascii_text (raw_TotalPrice Examples.corrupted_row) = true
  /\ (String.length (integer_digits (raw_TotalPrice Examples.corrupted_row)) <= 15)%nat
  /\ CleanPrice (process_row Examples.corrupted_row) = Some (inject_Z 19).
Proof.
  assert (H1 : is_ascii_text (raw_TotalPrice Examples.corrupted_row) = true)
    by reflexivity.
  assert (H2 : (String.length
                  (integer_digits (raw_TotalPrice Examples.corrupted_row))
                <= 15)%nat) by (simpl; lia).
  split; [exact H1|]. split; [exact H2|].
  exact (proj1 (proj1 clean_price_is_integer_part Examples.corrupted_row H1 H2)).
Defined.

(** C1 as stated fails: the clean price of "19.99123" is not 19.99. *)
Lemma clean_price_19_99123_not_19_99 :
  ~ (exists q, CleanPrice (process_row Examples.corrupted_row) = Some q
               /\ Qeq q (1999 # 100)).
Proof.
  intros [q [H Hq]]. vm_compute in H. injection H as <-.
  vm_compute in Hq. discriminate.
Qed.

End PriceRepair.

(** ** Distinct values, sorting and grouping *)

Section UniqueFacts.

Context {K : Type}.
Variable keq : K -> K -> bool.
Hypothesis keq_spec : forall a b, keq a b = true <-> a = b.

Lemma unique_In (l : list K) (x : K) : In x (unique keq l) <-> In x l.
Proof.
  induction l as [|a l IH]; simpl; [tauto|].
  rewrite filter_In, IH. split.
  - intros [H|[H _]]; auto.
  - intros [H|H]; auto.
    destruct (keq a x) eqn:E.
    + left. now apply keq_spec.
    + right. now split.
Qed.

Lemma unique_NoDup (l : list K) : NoDup (unique keq l).
Proof.
  induction l as [|a l IH]; simpl; constructor.
  - rewrite filter_In. intros [_ H].
    assert (E : keq a a = true) by now apply keq_spec.
    rewrite E in H. discriminate.
  - now apply NoDup_filter.
Qed.

End UniqueFacts.

Section SortFacts.

Context {A : Type}.
Variable le : A -> A -> bool.

Lemma insert_by_perm (x : A) (l : list A) :
  Permutation (insert_by le x l) (x :: l).
Proof.
  induction l as [|y l IH]; simpl; [reflexivity|].
  destruct (le x y); [reflexivity|].
  rewrite IH. apply perm_swap.
Qed.

Lemma sort_by_perm (l : list A) : Permutation (sort_by le l) l.
Proof.
  induction l as [|x l IH]; simpl; [reflexivity|].
  rewrite insert_by_perm. now constructor.
Qed.

Lemma sort_by_In (l : list A) (x : A) : In x (sort_by le l) <-> In x l.
Proof.
  split; apply Permutation_in;
    [apply sort_by_perm | symmetry; apply sort_by_perm].
Qed.

Hypothesis le_total : forall a b, le a b = true \/ le b a = true.
Hypothesis le_trans :
  forall a b c, le a b = true -> le b c = true -> le a c = true.

Let leP (a b : A) : Prop := le a b = true.

Lemma insert_by_sorted (x : A) (l : list A) :
  Sorted leP l -> Sorted leP (insert_by le x l).
Proof.
  induction 1 as [|y l Hs IH Hhd]; simpl.
  - repeat constructor.
  - destruct (le x y) eqn:E.
    + constructor; [now constructor|now constructor].
    + constructor; [assumption|].
      assert (Hyx : leP y x) by (destruct (le_total x y); congruence).
      destruct Hhd as [|z l Hyz]; simpl.
      * now constructor.
      * destruct (le x z); now constructor.
Qed.

Lemma sort_by_sorted (l : list A) : StronglySorted leP (sort_by le l).
Proof.
  apply Sorted_StronglySorted.
  - intros a b c. apply le_trans.
  - induction l as [|x l IH]; simpl; [constructor|].
    now apply insert_by_sorted.
Qed.

End SortFacts.

Lemma firstn_In {A} (n : nat) (l : list A) (x : A) :
  In x (firstn n l) -> In x l.
Proof.
  revert n. induction l as [|y l IH]; intros [|n]; simpl; try tauto.
  intros [H|H]; eauto.
Qed.

Lemma StronglySorted_firstn {A} (R : A -> A -> Prop) (n : nat) (l : list A) :
  StronglySorted R l -> StronglySorted R (firstn n l).
Proof.
  intros H. revert n.
  induction H as [|x l Hs IH Hall]; intros [|n]; simpl; try constructor.
  - apply IH.
  - rewrite Forall_forall in *. intros y Hy. apply Hall.
    eapply firstn_In; eassumption.
Qed.

Lemma StronglySorted_map {A B} (R : A -> A -> Prop) (S : B -> B -> Prop)
    (f : A -> B) (l : list A) :
  (forall a b, R a b -> S (f a) (f b)) ->
  StronglySorted R l -> StronglySorted S (map f l).
Proof.
  intros Hf. induction 1 as [|x l Hs IH Hall]; simpl; constructor; auto.
  rewrite Forall_forall in *. intros y Hy.
  apply in_map_iff in Hy as [a [<- Ha]]. auto.
Qed.

Section GroupFacts.

Context {A K : Type}.
Variable keq : K -> K -> bool.
Variable kle : K -> K -> bool.
Hypothesis keq_spec : forall a b, keq a b = true <-> a = b.
Variable key : A -> K.

Lemma groupby_nil : groupby keq kle key [] = [].
Proof. reflexivity. Qed.

Lemma groupby_keys (df : list A) :
  map fst (groupby keq kle key df) = sort_by kle (unique keq (map key df)).
Proof.
  unfold groupby. rewrite map_map. simpl. apply map_id.
Qed.

Lemma groupby_keys_NoDup (df : list A) :
  NoDup (map fst (groupby keq kle key df)).
Proof.
  rewrite groupby_keys.
  eapply Permutation_NoDup.
  - symmetry. apply sort_by_perm.
  - now apply unique_NoDup.
Qed.

Lemma groupby_In (df : list A) (k : K) (g : list A) :
  In (k, g) (groupby keq kle key df) ->
  g = filter (fun r => keq (key r) k) df /\ In k (map key df).
Proof.
  unfold groupby. rewrite in_map_iff. intros [k' [E Hk]].
  injection E as -> <-. split; [reflexivity|].
  apply sort_by_In in Hk. exact (proj1 (unique_In keq keq_spec _ _) Hk).
Qed.

(** Every group holds at least one row. *)
Lemma groupby_nonempty (df : list A) (k : K) (g : list A) :
  In (k, g) (groupby keq kle key df) -> g <> [].
Proof.
  intros H. apply groupby_In in H as [-> Hk].
  apply in_map_iff in Hk as [r [<- Hr]].
  intros E.
  assert (Hin : In r (filter (fun r0 => keq (key r0) (key r)) df)).
  { apply filter_In. split; [assumption|now apply keq_spec]. }
  rewrite E in Hin. contradiction.
Qed.

(** Two groups with the same key are the same group. *)
Lemma groupby_key_inj (df : list A) (x y : K * list A) :
  In x (groupby keq kle key df) -> In y (groupby keq kle key df) ->
  fst x = fst y -> x = y.
Proof.
  destruct x as [k g], y as [k' g']. simpl. intros Hx Hy <-.
  apply groupby_In in Hx as [-> _]. apply groupby_In in Hy as [-> _].
  reflexivity.
Qed.

End GroupFacts.

(** ** Keys *)

Lemma product_key_eqb_spec (a b : string * string) :
  product_key_eqb a b = true <-> a = b.
Proof.
  destruct a as [a1 a2], b as [b1 b2]. unfold product_key_eqb; simpl.
  rewrite andb_true_iff, !String.eqb_eq. split.
  - now intros [-> ->].
  - now intros [= -> ->].
Qed.

Lemma month_key_eqb_spec (a b : Z * string) :
  month_key_eqb a b = true <-> a = b.
Proof.
  destruct a as [a1 a2], b as [b1 b2]. unfold month_key_eqb; simpl.
  rewrite andb_true_iff, Z.eqb_eq, String.eqb_eq. split.
  - now intros [-> ->].
  - now intros [= -> ->].
Qed.

(** ** Dates of a group *)

Lemma date_min_le (a b : Date) : day_number (date_min a b) <= day_number a.
Proof.
  unfold date_min, date_leb.
  destruct (Z.leb_spec (day_number a) (day_number b)); lia.
Qed.

Lemma date_max_ge (a b : Date) : day_number a <= day_number (date_max a b).
Proof.
  unfold date_max, date_leb.
  destruct (Z.leb_spec (day_number a) (day_number b)); lia.
Qed.

Lemma fold_min_le_fold_max (rest : list Date) (a b : Date) :
  day_number a <= day_number b ->
  day_number (fold_left date_min rest a) <= day_number (fold_left date_max rest b).
Proof.
  revert a b. induction rest as [|d rest IH]; simpl; intros a b H; [assumption|].
  apply IH. pose proof (date_min_le a d). pose proof (date_max_ge b d). lia.
Qed.

(** ** Rows of the product analysis *)

Section AnalysisFacts.

Variable df : DataFrame.
Variable user_id : string.

Let groups :=
  groupby product_key_eqb product_key_leb
          (fun r => (ItemName r, Category r)) (rows_of_user df user_id).

Lemma analysis_row_group (a : ProductAnalysis) :
  In a (analyze_purchase_patterns df user_id) ->
  exists k g, In (k, g) groups /\ g <> [] /\ a = analyze_group (k, g).
Proof.
  unfold analyze_purchase_patterns. rewrite in_map_iff.
  intros [[k g] [<- Hin]]. exists k, g. repeat split; [assumption|].
  eapply groupby_nonempty; [apply product_key_eqb_spec|exact Hin].
Qed.

(** The count of a product is at least one. *)
Lemma analysis_count_pos (a : ProductAnalysis) :
  In a (analyze_purchase_patterns df user_id) -> 1 <= purchase_count a.
Proof.
  intros H. apply analysis_row_group in H as [k [g [_ [Hg ->]]]].
  simpl. destruct g; [congruence|]. simpl List.length. lia.
Qed.

(** The span of a product is a number of days, not negative. *)
Lemma analysis_days_span (a : ProductAnalysis) :
  In a (analyze_purchase_patterns df user_id) ->
  exists s, days_span a = Some s /\ 0 <= s.
Proof.
  intros H. apply analysis_row_group in H as [k [g [_ [Hg ->]]]].
  destruct g as [|r g]; [congruence|]. simpl.
  eexists. split; [reflexivity|].
  pose proof (fold_min_le_fold_max (map OrderDate g) (OrderDate r) (OrderDate r)).
  lia.
Qed.

(** A product bought once has span 0: the division by
    [purchase_count - 1 = 0] is the division [0 / 0]. *)
Lemma days_span_of_single (a : ProductAnalysis) :
  In a (analyze_purchase_patterns df user_id) ->
  purchase_count a = 1 -> days_span a = Some 0.
Proof.
  intros H. apply analysis_row_group in H as [k [g [_ [Hg ->]]]].
  destruct g as [|r [|r' g]]; [congruence| |].
  - intros _. simpl. f_equal. lia.
  - simpl purchase_count. simpl List.length. lia.
Qed.

Lemma avg_interval_of_single (a : ProductAnalysis) :
  In a (analyze_purchase_patterns df user_id) ->
  purchase_count a = 1 -> avg_interval a = (0 # 1)%Q.
Proof.
  intros H. apply analysis_row_group in H as [k [g [_ [Hg ->]]]].
  destruct g as [|r [|r' g]]; [congruence| |].
  - intros _. reflexivity.
  - simpl purchase_count. simpl List.length. lia.
Qed.

Lemma avg_interval_of_repeated (a : ProductAnalysis) :
  In a (analyze_purchase_patterns df user_id) ->
  1 < purchase_count a ->
  exists s, days_span a = Some s /\ 0 <= s /\
            avg_interval a
            = Qdiv (inject_Z s) (inject_Z (purchase_count a - 1)).
Proof.
  intros H Hc. destruct (analysis_days_span a H) as [s [Hs Hpos]].
  exists s. repeat split; try assumption.
  apply analysis_row_group in H as [k [g [_ [Hg ->]]]].
  simpl in *. rewrite Hs. simpl.
  destruct (Z.eqb_spec (Z.of_nat (List.length g) - 1) 0); [lia|reflexivity].
Qed.

Lemma avg_interval_nonneg (a : ProductAnalysis) :
  In a (analyze_purchase_patterns df user_id) -> (0 <= avg_interval a)%Q.
Proof.
  intros H. pose proof (analysis_count_pos a H) as Hc.
  destruct (Z.eq_dec (purchase_count a) 1) as [E|E].
  - rewrite (avg_interval_of_single a H E). apply Qle_refl.
  - destruct (avg_interval_of_repeated a H) as [s [_ [Hs ->]]]; [lia|].
    apply Qle_shift_div_l.
    + change (0 # 1)%Q with (inject_Z 0). rewrite <- Zlt_Qlt. lia.
    + rewrite Qmult_0_l. change (0 # 1)%Q with (inject_Z 0).
      now rewrite <- Zle_Qle.
Qed.

(** A positive interval needs two purchases. *)
Lemma positive_interval_repeated (a : ProductAnalysis) :
  In a (analyze_purchase_patterns df user_id) ->
  (0 < avg_interval a)%Q -> 2 <= purchase_count a.
Proof.
  intros H Hpos. pose proof (analysis_count_pos a H) as Hc.
  destruct (Z.eq_dec (purchase_count a) 1) as [E|E]; [|lia].
  rewrite (avg_interval_of_single a H E) in Hpos.
  now apply Qlt_irrefl in Hpos.
Qed.

(** Rows of the analysis with the same product are the same row. *)
Lemma analysis_key_inj (a b : ProductAnalysis) :
  In a (analyze_purchase_patterns df user_id) ->
  In b (analyze_purchase_patterns df user_id) ->
  pa_ItemName a = pa_ItemName b -> pa_Category a = pa_Category b -> a = b.
Proof.
  intros Ha Hb.
  apply analysis_row_group in Ha as [[k1 k2] [g [Hg [_ ->]]]].
  apply analysis_row_group in Hb as [[k1' k2'] [g' [Hg' [_ ->]]]].
  intros E1 E2. simpl in E1, E2. subst k1' k2'.
  assert (E : (k1, k2, g) = (k1, k2, g')).
  { eapply groupby_key_inj; eauto using product_key_eqb_spec. }
  now injection E as ->.
Qed.

End AnalysisFacts.

(** ** Rounding *)

Lemma round_half_even_mono (p q : Q) :
  (p <= q)%Q -> round_half_even p <= round_half_even q.
Proof.
  intros H. unfold round_half_even.
  pose proof (Qfloor_resp_le _ _ H) as Hf.
  destruct (Z.eq_dec (Qfloor p) (Qfloor q)) as [E|E].
  - rewrite E.
    destruct (Qcompare_spec (p - inject_Z (Qfloor q)) (1 # 2)) as [Hp|Hp|Hp];
      destruct (Qcompare_spec (q - inject_Z (Qfloor q)) (1 # 2)) as [Hq|Hq|Hq];
      destruct (Z.even (Qfloor q)); try lia; exfalso; lra.
  - destruct (Qcompare (p - inject_Z (Qfloor p)) (1 # 2));
      destruct (Qcompare (q - inject_Z (Qfloor q)) (1 # 2));
      destruct (Z.even (Qfloor p)); destruct (Z.even (Qfloor q)); lia.
Qed.



Lemma round1_mono (p q : Q) : (p <= q)%Q -> (round1 p <= round1 q)%Q.
Proof.
  intros H. unfold round1, Qle; simpl.
  assert (Hm : (p * (10 # 1) <= q * (10 # 1))%Q) by lra.
  apply round_half_even_mono in Hm. lia.
Qed.

(** ** Ranking *)

Lemma rank_leb_iff (a b : ProductAnalysis) :
  rank_leb a b = true <-> rank_le a b.
Proof.
  unfold rank_leb, rank_le.
  rewrite orb_true_iff, andb_true_iff, Z.ltb_lt, Z.eqb_eq, Qle_bool_iff.
  reflexivity.
Qed.

Lemma rank_leb_total (a b : ProductAnalysis) :
  rank_leb a b = true \/ rank_leb b a = true.
Proof.
  rewrite !rank_leb_iff. unfold rank_le.
  destruct (Z.lt_total (purchase_count a) (purchase_count b)) as [H|[H|H]];
    [right; left; exact H | | left; left; exact H].
  destruct (Qlt_le_dec (avg_interval b) (avg_interval a)) as [Hq|Hq].
  - right. right. split; [now symmetry|now apply Qlt_le_weak].
  - left. right. now split.
Qed.

Lemma rank_le_trans (a b c : ProductAnalysis) :
  rank_le a b -> rank_le b c -> rank_le a c.
Proof.
  unfold rank_le. intros [H1|[H1 Q1]] [H2|[H2 Q2]].
  - left. lia.
  - left. lia.
  - left. lia.
  - right. split; [lia|]. eapply Qle_trans; eassumption.
Qed.

Lemma rank_leb_trans (a b c : ProductAnalysis) :
  rank_leb a b = true -> rank_leb b c = true -> rank_leb a c = true.
Proof.
  rewrite !rank_leb_iff. apply rank_le_trans.
Qed.

Lemma make_entry_mono (a b : ProductAnalysis) :
  rank_le a b -> entry_le (make_entry a) (make_entry b).
Proof.
  unfold rank_le, entry_le; simpl. intros [H|[H Hq]]; [now left|].
  right. split; [assumption|]. now apply round1_mono.
Qed.

Lemma StronglySorted_weaken {A} (R S : A -> A -> Prop) (l : list A) :
  (forall a b, R a b -> S a b) -> StronglySorted R l -> StronglySorted S l.
Proof.
  intros HRS. induction 1 as [|x l Hs IH Hall]; constructor; auto.
  eapply Forall_impl; [|exact Hall]. auto.
Qed.

Lemma ranked_rows_sorted df user_id min_purchases target_interval_days :
  StronglySorted rank_le
                 (ranked_rows df user_id min_purchases target_interval_days).
Proof.
  unfold ranked_rows.
  eapply StronglySorted_weaken; [intros a b; apply rank_leb_iff|].
  apply sort_by_sorted; [apply rank_leb_total|apply rank_leb_trans].
Qed.

Lemma regular_pattern_iff (min_purchases : Z) (t : Q) (a : ProductAnalysis) :
  regular_pattern min_purchases t a = true <->
  min_purchases <= purchase_count a
  /\ (0 < avg_interval a)%Q
  /\ (t * (1 # 2) <= avg_interval a)%Q
  /\ (avg_interval a <= t * (3 # 2))%Q.
Proof.
  unfold regular_pattern.
  rewrite !andb_true_iff, Z.leb_le, negb_true_iff, !Qle_bool_iff.
  assert (Hpos : Qle_bool (avg_interval a) (0 # 1) = false
                 <-> (0 < avg_interval a)%Q).
  { split.
    - intros H. apply Qnot_le_lt. intros Hle.
      apply Qle_bool_iff in Hle. congruence.
    - intros H. destruct (Qle_bool (avg_interval a) (0 # 1)) eqn:E; [|reflexivity].
      apply Qle_bool_iff in E. exfalso. eapply Qlt_not_le; eassumption. }
  rewrite Hpos. tauto.
Qed.

(** An entry of the bucket list is made from a row that passed the
    filter. *)
Lemma recommendation_origin df user_id min_purchases t (e : Entry.t) :
  In e (generate_recommendations df user_id min_purchases t) ->
  exists a, e = make_entry a
            /\ In a (analyze_purchase_patterns df user_id)
            /\ regular_pattern min_purchases t a = true.
Proof.
  unfold generate_recommendations. intros H.
  apply firstn_In in H. apply in_map_iff in H as [a [<- Ha]].
  unfold ranked_rows in Ha. apply sort_by_In in Ha.
  unfold regular_rows in Ha. apply filter_In in Ha as [Ha Hp].
  exists a. auto.
Qed.

(** ** Recommendations *)

(** C2: the bucket list has at most 15 entries and is ordered by
    descending purchase count, then ascending interval; it is the image
    of the first 15 rows of the filtered table once that table has been
    sorted, so the cut comes after the sort. *)
Theorem recommendations_capped_and_ranked
    (df : DataFrame) (user_id : string) (min_purchases : Z)
    (target_interval_days : Q) :
  let out := generate_recommendations df user_id min_purchases target_interval_days in
  (List.length out <= 15)%nat
  /\ StronglySorted entry_le out
  /\ exists ranked,
       Permutation ranked
                   (regular_rows df user_id min_purchases target_interval_days)
       /\ StronglySorted rank_le ranked
       /\ out = map make_entry (firstn 15 ranked).
Proof.
  cbv zeta. unfold generate_recommendations.
  pose proof (ranked_rows_sorted df user_id min_purchases target_interval_days)
    as Hsorted.
  split; [apply firstn_le_length|]. split.
  - apply StronglySorted_firstn.
    eapply StronglySorted_map; [apply make_entry_mono|exact Hsorted].
  - exists (ranked_rows df user_id min_purchases target_interval_days).
    split; [apply sort_by_perm|]. split; [exact Hsorted|].
    apply firstn_map.
Qed.

(** C3: in every row of the product analysis the interval is not
    negative; it is the span divided by (count - 1) when the count
    exceeds 1 and exactly 0 when the count is 1; and a product whose
    count is 1 is the product of no entry of any bucket list, whatever
    the two thresholds. *)
Theorem avg_interval_invariant
    (df : DataFrame) (user_id : string) (a : ProductAnalysis) :
  In a (analyze_purchase_patterns df user_id) ->
  (0 <= avg_interval a)%Q
  /\ (1 < purchase_count a ->
      exists span, days_span a = Some span
                   /\ avg_interval a
                      = Qdiv (inject_Z span) (inject_Z (purchase_count a - 1)))
  /\ (purchase_count a = 1 -> avg_interval a = (0 # 1)%Q)
  /\ (purchase_count a = 1 ->
      forall min_purchases target_interval_days e,
        In e (generate_recommendations df user_id min_purchases
                                       target_interval_days) ->
        ~ (Entry.item e = pa_ItemName a /\ Entry.category e = pa_Category a)).
Proof.
  intros Ha. split; [exact (avg_interval_nonneg df user_id a Ha)|].
  split; [|split].
  - intros Hc. destruct (avg_interval_of_repeated df user_id a Ha Hc)
      as [s [Hs [_ Havg]]]. eauto.
  - exact (avg_interval_of_single df user_id a Ha).
  - intros Hc min_purchases t e He [Hitem Hcat].
    apply recommendation_origin in He as [b [-> [Hb Hp]]]. simpl in Hitem, Hcat.
    assert (b = a) as -> by exact (analysis_key_inj df user_id b a Hb Ha Hitem Hcat).
    apply regular_pattern_iff in Hp as [_ [Hpos _]].
    rewrite (avg_interval_of_single df user_id a Ha Hc) in Hpos.
    now apply Qlt_irrefl in Hpos.
Qed.

(** C6: a row of the analysis passes the filter exactly when its count
    reaches [min_purchases], its interval is positive and the interval
    lies between half the target and one and a half times the target,
    both ends included.  With target 30 the intervals 15 and 45 pass,
    14.9 and 45.1 do not. *)
Theorem interval_band_inclusive :
  (forall df user_id min_purchases t a,
      In a (regular_rows df user_id min_purchases t) <->
      In a (analyze_purchase_patterns df user_id)
      /\ min_purchases <= purchase_count a
      /\ (0 < avg_interval a)%Q
      /\ (t * (1 # 2) <= avg_interval a)%Q
      /\ (avg_interval a <= t * (3 # 2))%Q)
  /\ map (fun a => (pa_ItemName a, avg_interval a))
         (analyze_purchase_patterns Examples.boundary_table "C001")
     = [("Bread", 15 # 1); ("Coffee", 149 # 10);
        ("Soap", 45 # 1); ("Tea", 451 # 10)]%Q%string
  /\ map (fun a => pa_ItemName a)
         (regular_rows Examples.boundary_table "C001" 2 (30 # 1))
     = ["Bread"; "Soap"]%string
  /\ map Entry.item
         (generate_recommendations Examples.boundary_table "C001" 2 (30 # 1))
     = ["Bread"; "Soap"]%string.
Proof.
  split; [|split; [|split]].
  - intros df user_id min_purchases t a. unfold regular_rows.
    rewrite filter_In, regular_pattern_iff. reflexivity.
  - vm_compute. reflexivity.
  - vm_compute. reflexivity.
  - vm_compute. reflexivity.
Qed.

Lemma filter_none {A} (f : A -> bool) (l : list A) :
  (forall x, In x l -> f x = false) -> filter f l = [].
Proof.
  induction l as [|x l IH]; simpl; intros H; [reflexivity|].
  rewrite (H x (or_introl eq_refl)). apply IH. intros y Hy. apply H. now right.
Qed.

(** C8: a target interval that is not positive gives an empty bucket
    list. *)
Theorem nonpositive_target_empty
    (df : DataFrame) (user_id : string) (min_purchases : Z)
    (target_interval_days : Q) :
  (target_interval_days <= 0)%Q ->
  generate_recommendations df user_id min_purchases target_interval_days = [].
Proof.
  intros Ht. unfold generate_recommendations, ranked_rows, regular_rows.
  rewrite filter_none; [reflexivity|].
  intros a _. destruct (regular_pattern _ _ a) eqn:E; [|reflexivity].
  apply regular_pattern_iff in E as [_ [Hpos [_ Hup]]]. exfalso. lra.
Qed.

Lemma nonpositive_target_empty_witness :
  (- (5 # 1) <= 0)%Q
  /\ generate_recommendations Examples.boundary_table "C001" 2 (- (5 # 1)) = [].
Proof.
  assert (H : (- (5 # 1) <= 0)%Q) by (apply Qle_bool_iff; reflexivity).
  split; [exact H|].
  exact (nonpositive_target_empty Examples.boundary_table "C001" 2 _ H).
Defined.

(** C9: a [min_purchases] below 1 is accepted and gives the bucket list
    of [min_purchases = 1]. *)
Theorem min_purchases_below_one
    (df : DataFrame) (user_id : string) (min_purchases : Z)
    (target_interval_days : Q) :
  min_purchases < 1 ->
  generate_recommendations df user_id min_purchases target_interval_days
  = generate_recommendations df user_id 1 target_interval_days.
Proof.
  intros Hm. unfold generate_recommendations, ranked_rows, regular_rows.
  do 3 f_equal. apply filter_ext_in. intros a Ha.
  pose proof (analysis_count_pos df user_id a Ha) as Hc.
  unfold regular_pattern.
  replace (min_purchases <=? purchase_count a) with true
    by (symmetry; apply Z.leb_le; lia).
  replace (1 <=? purchase_count a) with true
    by (symmetry; apply Z.leb_le; lia).
  reflexivity.
Qed.

Lemma min_purchases_below_one_witness :
  -3 < 1
  /\ generate_recommendations Examples.boundary_table "C001" (-3) (30 # 1)
     = generate_recommendations Examples.boundary_table "C001" 1 (30 # 1).
Proof.
  assert (H : -3 < 1) by reflexivity.
  split; [exact H|].
  exact (min_purchases_below_one Examples.boundary_table "C001" (-3) (30 # 1) H).
Defined.

(** C10: every entry of a bucket list has a purchase count of at least
    2, whatever [min_purchases] and the target interval are, because the
    filter asks for a positive interval. *)
Theorem recommended_at_least_twice
    (df : DataFrame) (user_id : string) (min_purchases : Z)
    (target_interval_days : Q) (e : Entry.t) :
  In e (generate_recommendations df user_id min_purchases target_interval_days) ->
  2 <= Entry.purchase_count e.
Proof.
  intros He. apply recommendation_origin in He as [a [-> [Ha Hp]]]. simpl.
  apply regular_pattern_iff in Hp as [_ [Hpos _]].
  exact (positive_interval_repeated df user_id a Ha Hpos).
Qed.

Lemma recommended_at_least_twice_witness :
  In Examples.bread_entry
     (generate_recommendations Examples.boundary_table "C001" 2 (30 # 1))
  /\ 2 <= Entry.purchase_count Examples.bread_entry.
Proof.
  assert (Hin : In Examples.bread_entry
                   (generate_recommendations Examples.boundary_table "C001" 2
                                             (30 # 1)))
    by (vm_compute; left; reflexivity).
  split; [exact Hin|].
  exact (recommended_at_least_twice Examples.boundary_table "C001" 2 (30 # 1)
                                    Examples.bread_entry Hin).
Defined.

Lemma avg_interval_invariant_witness :
  In Examples.bread_analysis
     (analyze_purchase_patterns Examples.boundary_table "C001")
  /\ (0 <= avg_interval Examples.bread_analysis)%Q.
Proof.
  assert (Hin : In Examples.bread_analysis
                   (analyze_purchase_patterns Examples.boundary_table "C001"))
    by (vm_compute; left; reflexivity).
  split; [exact Hin|].
  exact (proj1 (avg_interval_invariant Examples.boundary_table "C001"
                                       Examples.bread_analysis Hin)).
Defined.

(** ** Unknown customers *)

Lemma rows_of_user_unknown (df : DataFrame) (user_id : string) :
  ~ In user_id (map CustomerID df) -> rows_of_user df user_id = [].
Proof.
  intros H. apply filter_none. intros r Hr.
  destruct (String.eqb_spec (CustomerID r) user_id) as [E|E]; [|reflexivity].
  exfalso. apply H. rewrite <- E. now apply in_map.
Qed.

Lemma filter_month_nil (month : option Z) : filter_month month [] = [].
Proof.
  destruct month as [m|]; simpl; [|reflexivity]. now destruct (negb (m =? 0)).
Qed.

Lemma filter_category_nil (category : option string) :
  filter_category category [] = [].
Proof.
  destruct category as [c|]; simpl; [|reflexivity].
  now destruct (negb (String.eqb c "")).
Qed.

(** C5: for a customer id that no row of the table carries, the
    purchases query, the pattern aggregation, the recommendations, the
    spending summary and the monthly trends are all empty; each of them
    is a total function, so none fails. *)
Theorem unknown_customer_empty (df : DataFrame) (user_id : string) :
  ~ In user_id (map CustomerID df) ->
  (forall month category, get_user_purchases df user_id month category = [])
  /\ analyze_purchase_patterns df user_id = []
  /\ (forall min_purchases target_interval_days,
        generate_recommendations df user_id min_purchases target_interval_days
        = [])
  /\ (forall month, get_spending_summary df user_id month = [])
  /\ get_monthly_trends df user_id = [].
Proof.
  intros H. pose proof (rows_of_user_unknown df user_id H) as Hrows.
  assert (Han : analyze_purchase_patterns df user_id = [])
    by (unfold analyze_purchase_patterns; now rewrite Hrows).
  repeat split.
  - intros month category. unfold get_user_purchases.
    now rewrite Hrows, filter_month_nil, filter_category_nil.
  - exact Han.
  - intros min_purchases t.
    unfold generate_recommendations, ranked_rows, regular_rows.
    now rewrite Han.
  - intros month. unfold get_spending_summary.
    now rewrite Hrows, filter_month_nil.
  - unfold get_monthly_trends. now rewrite Hrows.
Qed.

Lemma unknown_customer_empty_witness :
  ~ In "C999"%string (map CustomerID Examples.boundary_table)
  /\ analyze_purchase_patterns Examples.boundary_table "C999" = []
  /\ get_monthly_trends Examples.boundary_table "C999" = [].
Proof.
  assert (H : ~ In "C999"%string (map CustomerID Examples.boundary_table)).
  { intros Hin. vm_compute in Hin.
    repeat (destruct Hin as [Hin|Hin]; [discriminate Hin|]). exact Hin. }
  pose proof (unknown_customer_empty Examples.boundary_table "C999" H) as Hall.
  split; [exact H|]. split; [apply Hall|apply Hall].
Defined.

(** ** Month filter *)

(** C4, at month 0: the guard [if month:] treats the month 0 like an
    absent month, so the purchases query and the spending summary return
    what they return without a month filter; for customer C001 of the
    example table that is 26 purchases and 3 categories, not the empty
    result. *)
Theorem month_zero_is_no_filter :
  (forall df user_id category,
      get_user_purchases df user_id (Some 0) category
      = get_user_purchases df user_id None category)
  /\ (forall df user_id,
        get_spending_summary df user_id (Some 0)
        = get_spending_summary df user_id None)
  /\ List.length (get_user_purchases Examples.boundary_table "C001" (Some 0) None)
     = 26%nat
  /\ List.length (get_spending_summary Examples.boundary_table "C001" (Some 0))
     = 3%nat.
Proof.
  split; [|split; [|split]].
  - reflexivity.
  - reflexivity.
  - vm_compute. reflexivity.
  - vm_compute. reflexivity.
Qed.

(** Every other month outside 1..12 matches no row of a table whose
    dates are calendar dates. *)
Lemma month_out_of_range_nonzero (raw : list RawRow) (user_id : string)
    (m : Z) (category : option string) :
  Forall (fun r => valid_month (raw_OrderDate r)) raw ->
  m <> 0 -> m < 1 \/ 12 < m ->
  get_user_purchases (process_data raw) user_id (Some m) category = []
  /\ get_spending_summary (process_data raw) user_id (Some m) = [].
Proof.
  intros Hvalid Hm Hout.
  assert (Hnone : filter_month (Some m) (rows_of_user (process_data raw) user_id)
                  = []).
  { unfold filter_month, truthy_int.
    destruct (Z.eqb_spec m 0) as [|_]; [contradiction|]. simpl.
    apply filter_none. intros r Hr.
    apply filter_In in Hr as [Hr _].
    apply in_map_iff in Hr as [r0 [<- Hr0]].
    rewrite Forall_forall in Hvalid. specialize (Hvalid r0 Hr0).
    unfold valid_month in Hvalid. simpl.
    destruct (Z.eqb_spec (month (raw_OrderDate r0)) m); [lia|reflexivity]. }
  split.
  - unfold get_user_purchases. now rewrite Hnone, filter_category_nil.
  - unfold get_spending_summary. now rewrite Hnone.
Qed.

(** ** Spending summary against the purchases query *)




Section Partition.

Context {A K : Type}.
Variable keq : K -> K -> bool.
Hypothesis keq_spec : forall a b, keq a b = true <-> a = b.
Variable key : A -> K.
Variable c : A -> option Q.





End Partition.

(** ** Whole cents *)











(* ================================================================== *)
(** * Further properties of the analyzer *)

(** ** The order of texts *)

Lemma str_compare_lexical (a b : string) :
  String.compare a b = String_as_OT.compare a b.
Proof.
  revert b. induction a as [|x a IH]; intros [|y b]; reflexivity.
Qed.

Lemma str_lt_trans (a b c : string) : str_lt a b -> str_lt b c -> str_lt a c.
Proof.
  unfold str_lt. rewrite !str_compare_lexical.
  apply (StrictOrder_Transitive (R := String_as_OT.lt)).
Qed.

Lemma str_leb_cases (a b : string) : str_leb a b = true <-> a = b \/ str_lt a b.
Proof.
  unfold str_leb, str_lt. split.
  - destruct (String.compare a b) eqn:E; try discriminate; intros _.
    + left. now apply String.compare_eq_iff.
    + now right.
  - intros [-> | ->]; [|reflexivity].
    destruct (String.compare b b) eqn:E; try reflexivity.
    pose proof (String.compare_antisym b b) as H. rewrite E in H. discriminate.
Qed.

Lemma str_leb_total (a b : string) : str_leb a b = true \/ str_leb b a = true.
Proof. apply String.leb_total. Qed.

Lemma str_leb_trans (a b c : string) :
  str_leb a b = true -> str_leb b c = true -> str_leb a c = true.
Proof.
  rewrite !str_leb_cases. intros [-> | H1] [-> | H2]; auto.
  right. eapply str_lt_trans; eassumption.
Qed.

Lemma StronglySorted_NoDup_strict {A} (R S : A -> A -> Prop) (l : list A) :
  (forall a b, R a b -> a <> b -> S a b) ->
  StronglySorted R l -> NoDup l -> StronglySorted S l.
Proof.
  intros HRS Hs. induction Hs as [|x l Hs IH Hall]; intros Hnd; constructor.
  - apply IH. now inversion Hnd.
  - rewrite Forall_forall in *. intros y Hy. apply HRS; [now apply Hall|].
    intros ->. now inversion Hnd.
Qed.

(** The sorted distinct values of a text column: strictly ascending, and
    exactly the values that occur. *)
Lemma sorted_unique_column (col : Row -> string) (df : DataFrame) :
  StronglySorted str_lt (sort_by str_leb (unique String.eqb (map col df)))
  /\ forall v, In v (sort_by str_leb (unique String.eqb (map col df)))
               <-> exists r, In r df /\ col r = v.
Proof.
  split.
  - apply StronglySorted_NoDup_strict with (R := fun a b => str_leb a b = true).
    + intros a b Hab Hne. apply str_leb_cases in Hab as [E|H]; [contradiction|exact H].
    + apply sort_by_sorted; [apply str_leb_total|apply str_leb_trans].
    + eapply Permutation_NoDup; [symmetry; apply sort_by_perm|].
      apply unique_NoDup, String.eqb_eq.
  - intros v. rewrite sort_by_In, (unique_In String.eqb String.eqb_eq), in_map_iff.
    split; intros [r [H1 H2]]; exists r; auto.
Qed.



(** ** The purchases query *)

Lemma filter_all {A} (f : A -> bool) (l : list A) :
  (forall x, In x l -> f x = true) -> filter f l = l.
Proof.
  induction l as [|x l IH]; simpl; intros H; [reflexivity|].
  rewrite (H x (or_introl eq_refl)). f_equal. apply IH. intros y Hy. apply H. now right.
Qed.

(** Each of the two optional filters is a selection of rows. *)
Lemma filter_month_is_filter (month : option Z) :
  exists p, (forall l, filter_month month l = filter p l)
            /\ forall r, p r = true <->
                         (forall m, month = Some m -> m <> 0 -> Month r = m).
Proof.
  destruct month as [m|]; simpl.
  - destruct (Z.eqb_spec m 0) as [E|E]; simpl.
    + exists (fun _ => true). split.
      * intros l. symmetry. now apply filter_all.
      * intros r. split; [|reflexivity]. intros _ m' [= <-] Hm. contradiction.
    + exists (fun r => Month r =? m). split; [reflexivity|].
      intros r. rewrite Z.eqb_eq. split.
      * now intros H m' [= <-] _.
      * intros H. now apply H.
  - exists (fun _ => true). split.
    + intros l. symmetry. now apply filter_all.
    + intros r. split; [|reflexivity]. intros _ m' [=].
Qed.

Lemma filter_category_is_filter (category : option string) :
  exists p, (forall l, filter_category category l = filter p l)
            /\ forall r, p r = true <->
                         (forall c, category = Some c -> c <> ""%string ->
                                    Category r = c).
Proof.
  destruct category as [c|]; simpl.
  - destruct (String.eqb_spec c "") as [E|E]; simpl.
    + exists (fun _ => true). split.
      * intros l. symmetry. now apply filter_all.
      * intros r. split; [|reflexivity]. intros _ c' [= <-] Hc. contradiction.
    + exists (fun r => String.eqb (Category r) c). split; [reflexivity|].
      intros r. rewrite String.eqb_eq. split.
      * now intros H c' [= <-] _.
      * intros H. now apply H.
  - exists (fun _ => true). split.
    + intros l. symmetry. now apply filter_all.
    + intros r. split; [|reflexivity]. intros _ c' [=].
Qed.

(** X3: the purchases query returns exactly the rows of the table that
    carry the customer id, that are of the asked month when a month
    other than 0 is given, and of the asked category when a category
    other than the empty text is given.  A month 0 and an empty category
    select like an absent filter. *)
Theorem get_user_purchases_selects
    (df : DataFrame) (user_id : string) (month : option Z)
    (category : option string) (r : Row) :
  In r (get_user_purchases df user_id month category) <->
  In r df
  /\ CustomerID r = user_id
  /\ (forall m, month = Some m -> m <> 0 -> Month r = m)
  /\ (forall c, category = Some c -> c <> ""%string -> Category r = c).
Proof.
  unfold get_user_purchases, rows_of_user.
  destruct (filter_month_is_filter month) as [pm [Hm Hpm]].
  destruct (filter_category_is_filter category) as [pc [Hc Hpc]].
  rewrite Hc, Hm, !filter_In, String.eqb_eq, Hpm, Hpc. tauto.
Qed.


Lemma list_sum_map_plus {K} (f g : K -> nat) (l : list K) :
  list_sum (map (fun k => f k + g k)%nat l)
  = (list_sum (map f l) + list_sum (map g l))%nat.
Proof.
  induction l as [|k l IH]; simpl; [reflexivity|]. rewrite IH. lia.
Qed.

Lemma list_sum_indicator (m : Z) (w : nat) (months : list Z) :
  NoDup months -> In m months ->
  list_sum (map (fun k => if m =? k then w else 0%nat) months) = w.
Proof.
  induction 1 as [|k months Hk Hnd IH]; simpl; [contradiction|].
  intros [->|Hin].
  - rewrite Z.eqb_refl.
    assert (E : list_sum (map (fun k => if m =? k then w else 0%nat) months) = 0%nat).
    { clear IH Hnd. induction months as [|k months IHm]; simpl; [reflexivity|].
      destruct (Z.eqb_spec m k) as [->|_]; [exfalso; apply Hk; now left|].
      apply IHm. intros H. apply Hk. now right. }
    rewrite E. lia.
  - destruct (Z.eqb_spec m k) as [->|_]; [contradiction|]. now apply IH.
Qed.

Lemma month_partition_length (p : Row -> bool) (l : list Row) :
  Forall (fun r => 1 <= Month r <= 12) l ->
  List.length (filter p l)
  = list_sum (map (fun m => List.length (filter p (filter (fun r => Month r =? m) l)))
                  calendar_months).
Proof.
  induction 1 as [|r l Hr Hl IH].
  - reflexivity.
  - rewrite (map_ext
               (fun m => List.length (filter p (filter (fun r0 => Month r0 =? m) (r :: l))))
               (fun m => Nat.add
                           (if Month r =? m then (if p r then 1%nat else 0%nat)
                            else 0%nat)
                           (List.length
                              (filter p (filter (fun r0 => Month r0 =? m) l))))).
    + rewrite list_sum_map_plus, <- IH, list_sum_indicator.
      * simpl. now destruct (p r).
      * unfold calendar_months. repeat constructor; simpl; intuition lia.
      * unfold calendar_months. simpl.
        assert (Hc : Month r = 1 \/ Month r = 2 \/ Month r = 3 \/ Month r = 4
                     \/ Month r = 5 \/ Month r = 6 \/ Month r = 7 \/ Month r = 8
                     \/ Month r = 9 \/ Month r = 10 \/ Month r = 11 \/ Month r = 12)
          by lia.
        intuition.
    + intros m. simpl. destruct (Month r =? m); simpl; [|reflexivity].
      now destruct (p r).
Qed.

(** X5: in a table whose months are calendar months, the purchases of a
    customer split by month: the number of rows returned without a month
    filter is the sum over the twelve months of the numbers of rows
    returned for each month, under any category filter. *)
Theorem purchases_split_by_month
    (df : DataFrame) (user_id : string) (category : option string) :
  Forall (fun r => 1 <= Month r <= 12) df ->
  List.length (get_user_purchases df user_id None category)
  = list_sum (map (fun m => List.length
                              (get_user_purchases df user_id (Some m) category))
                  calendar_months).
Proof.
  intros Hvalid. unfold get_user_purchases.
  destruct (filter_category_is_filter category) as [pc [Hc _]].
  assert (Hrows : Forall (fun r => 1 <= Month r <= 12) (rows_of_user df user_id)).
  { rewrite Forall_forall in *. intros r Hr. apply Hvalid.
    unfold rows_of_user in Hr. now apply filter_In in Hr as [Hr _]. }
  simpl filter_month at 1. rewrite Hc.
  rewrite (month_partition_length pc _ Hrows).
  apply f_equal, map_ext_in. intros m Hm. rewrite Hc.
  unfold filter_month, truthy_int.
  destruct (Z.eqb_spec m 0) as [->|_]; [|reflexivity].
  exfalso. unfold calendar_months in Hm. simpl in Hm. intuition discriminate.
Qed.

Lemma purchases_split_by_month_witness :
  List.length (get_user_purchases Examples.boundary_table "C001" None None)
  = list_sum (map (fun m => List.length
                              (get_user_purchases Examples.boundary_table "C001"
                                                  (Some m) None))
                  calendar_months).
Proof.
  apply (purchases_split_by_month Examples.boundary_table "C001" None).
  unfold Examples.boundary_table. repeat (constructor; [simpl; lia|]). constructor.
Defined.


(** ** The spending summary *)



(** ** The product analysis *)


















(** ** More on recommendations *)




Section SortFilter.

Context {A : Type}.
Variable le : A -> A -> bool.
Hypothesis le_total : forall a b, le a b = true \/ le b a = true.
Hypothesis le_trans :
  forall a b c, le a b = true -> le b c = true -> le a c = true.
Variable q : A -> bool.

Lemma insert_by_below (x : A) (l : list A) :
  Forall (fun z => le x z = true) l -> insert_by le x l = x :: l.
Proof.
  intros H. destruct H as [|z l Hz _]; simpl; [reflexivity|]. now rewrite Hz.
Qed.

Lemma filter_insert_by (x : A) (l : list A) :
  StronglySorted (fun a b => le a b = true) l ->
  filter q (insert_by le x l)
  = if q x then insert_by le x (filter q l) else filter q l.
Proof.
  induction 1 as [|y l Hs IH Hall].
  - simpl. now destruct (q x).
  - cbn [insert_by]. destruct (le x y) eqn:Exy.
    + cbn [filter]. destruct (q x); [|reflexivity].
      rewrite insert_by_below; [reflexivity|].
      change (Forall (fun z => le x z = true) (filter q (y :: l))).
      apply Forall_forall. intros z Hz. apply filter_In in Hz as [[<-|Hz] _];
        [assumption|].
      rewrite Forall_forall in Hall. eapply le_trans; [exact Exy|now apply Hall].
    + cbn [filter]. rewrite IH. destruct (q y), (q x); cbn [insert_by];
        rewrite ?Exy; reflexivity.
Qed.

(** Selecting rows and sorting them stably commute. *)
Lemma filter_sort_by (l : list A) :
  filter q (sort_by le l) = sort_by le (filter q l).
Proof.
  induction l as [|x l IH]; simpl; [reflexivity|].
  rewrite filter_insert_by by (apply sort_by_sorted; assumption).
  rewrite IH. now destruct (q x).
Qed.

End SortFilter.

Lemma filter_firstn_sorted {A} (R : A -> A -> Prop) (q : A -> bool)
    (n : nat) (l : list A) :
  (forall a b, R a b -> q b = true -> q a = true) ->
  StronglySorted R l ->
  filter q (firstn n l) = firstn n (filter q l).
Proof.
  intros Hup Hs. revert n.
  induction Hs as [|a l Hs IH Hall]; intros [|n]; simpl; try reflexivity.
  destruct (q a) eqn:Ea; simpl; [now rewrite IH|].
  assert (Hnone : forall b, In b l -> q b = false).
  { intros b Hb. destruct (q b) eqn:Eb; [|reflexivity].
    rewrite Forall_forall in Hall. rewrite (Hup a b (Hall b Hb) Eb) in Ea.
    discriminate. }
  rewrite (filter_none q l Hnone), ?firstn_nil.
  apply filter_none. intros b Hb. apply Hnone. eapply firstn_In; eassumption.
Qed.

Lemma filter_map_comm {A B} (f : A -> B) (q : B -> bool) (l : list A) :
  filter q (map f l) = map f (filter (fun x => q (f x)) l).
Proof.
  induction l as [|x l IH]; simpl; [reflexivity|].
  rewrite IH. now destruct (q (f x)).
Qed.

Lemma filter_twice {A} (p q : A -> bool) (l : list A) :
  filter q (filter p l) = filter (fun x => p x && q x) l.
Proof.
  induction l as [|x l IH]; simpl; [reflexivity|].
  destruct (p x); simpl; rewrite IH; reflexivity.
Qed.

(** X12: raising [min_purchases] only removes entries: the bucket list
    for a higher threshold is the bucket list for a lower threshold
    without the entries whose purchase count is below the higher
    threshold, in the same order. *)
Theorem recommendations_threshold_monotone
    (df : DataFrame) (user_id : string) (low high : Z)
    (target_interval_days : Q) :
  low <= high ->
  generate_recommendations df user_id high target_interval_days
  = filter (fun e => high <=? Entry.purchase_count e)
           (generate_recommendations df user_id low target_interval_days).
Proof.
  intros Hle. unfold generate_recommendations, ranked_rows, regular_rows.
  rewrite !firstn_map, filter_map_comm. f_equal. cbn [make_entry Entry.purchase_count].
  rewrite (filter_firstn_sorted rank_le).
  - f_equal.
    rewrite (filter_sort_by rank_leb rank_leb_total rank_leb_trans).
    f_equal. rewrite filter_twice. apply filter_ext. intros a.
    unfold regular_pattern.
    destruct (Z.leb_spec high (purchase_count a));
      destruct (Z.leb_spec low (purchase_count a)); try lia;
      rewrite ?andb_true_r, ?andb_false_r; reflexivity.
  - intros a b Hab Hb. apply Z.leb_le in Hb. apply Z.leb_le.
    destruct Hab as [H|[H _]]; lia.
  - apply (ranked_rows_sorted df user_id low target_interval_days).
Qed.

Lemma recommendations_threshold_monotone_witness :
  generate_recommendations Examples.boundary_table "C001" 11 (30 # 1)
  = filter (fun e => 11 <=? Entry.purchase_count e)
           (generate_recommendations Examples.boundary_table "C001" 2 (30 # 1)).
Proof.
  apply (recommendations_threshold_monotone Examples.boundary_table "C001" 2 11).
  lia.
Defined.


(** ** The monthly trends *)

Lemma month_key_leb_total (a b : Z * string) :
  month_key_leb a b = true \/ month_key_leb b a = true.
Proof.
  unfold month_key_leb. rewrite (Z.compare_antisym (fst a) (fst b)).
  destruct (Z.compare (fst a) (fst b)); simpl; auto. apply str_leb_total.
Qed.

Lemma month_key_leb_trans (a b c : Z * string) :
  month_key_leb a b = true -> month_key_leb b c = true ->
  month_key_leb a c = true.
Proof.
  unfold month_key_leb.
  destruct (Z.compare_spec (fst a) (fst b)) as [Eab|Eab|Eab]; try discriminate;
    destruct (Z.compare_spec (fst b) (fst c)) as [Ebc|Ebc|Ebc]; try discriminate.
  - rewrite Eab, Ebc, Z.compare_refl. apply str_leb_trans.
  - intros _ _. rewrite Eab. now apply Z.compare_lt_iff in Ebc as ->.
  - intros _ _. rewrite <- Ebc. now apply Z.compare_lt_iff in Eab as ->.
  - intros _ _. assert (H : fst a < fst c) by lia.
    now apply Z.compare_lt_iff in H as ->.
Qed.

Lemma str_lt_irrefl (a : string) : ~ str_lt a a.
Proof.
  unfold str_lt. intros H. pose proof (String.compare_antisym a a) as E.
  rewrite H in E. discriminate.
Qed.

(** Two strictly ascending lists with the same elements are equal. *)
Lemma sorted_same_elements (l1 l2 : list string) :
  StronglySorted str_lt l1 -> StronglySorted str_lt l2 ->
  (forall x, In x l1 <-> In x l2) -> l1 = l2.
Proof.
  intros H1. revert l2. induction H1 as [|a l1 Hs1 IH Hall1]; intros l2 H2 Hsame.
  - destruct l2 as [|b l2]; [reflexivity|].
    exfalso. apply (Hsame b). now left.
  - destruct H2 as [|b l2 Hs2 Hall2].
    + exfalso. apply (Hsame a). now left.
    + rewrite Forall_forall in Hall1, Hall2.
      assert (a = b) as <-.
      { destruct (proj1 (Hsame a) (or_introl eq_refl)) as [E|Ha]; [now symmetry|].
        destruct (proj2 (Hsame b) (or_introl eq_refl)) as [E|Hb]; [assumption|].
        exfalso. apply (str_lt_irrefl a).
        eapply str_lt_trans; [apply Hall1, Hb|apply Hall2, Ha]. }
      f_equal. apply IH; [assumption|]. intros x. split; intros Hx.
      * destruct (proj1 (Hsame x) (or_intror Hx)) as [<-|H]; [|exact H].
        exfalso. apply (str_lt_irrefl a). now apply Hall1.
      * destruct (proj2 (Hsame x) (or_intror Hx)) as [<-|H]; [|exact H].
        exfalso. apply (str_lt_irrefl a). now apply Hall2.
Qed.

Lemma StronglySorted_filter {A} (R : A -> A -> Prop) (p : A -> bool) (l : list A) :
  StronglySorted R l -> StronglySorted R (filter p l).
Proof.
  induction 1 as [|x l Hs IH Hall]; simpl; [constructor|].
  destruct (p x); [|exact IH]. constructor; [exact IH|].
  rewrite Forall_forall in *. intros y Hy. apply Hall.
  now apply filter_In in Hy as [Hy _].
Qed.

Lemma month_keys_categories_sorted (m : Z) (l : list (Z * string)) :
  StronglySorted (fun a b => month_key_leb a b = true) l ->
  NoDup l -> Forall (fun k => fst k = m) l ->
  StronglySorted str_lt (map snd l) /\ l = map (pair m) (map snd l).
Proof.
  induction 1 as [|[m' c] l Hs IH Hall]; intros Hnd Hm; simpl.
  - split; [constructor|reflexivity].
  - apply NoDup_cons_iff in Hnd as [Hk Hnd'].
    apply Forall_cons_iff in Hm as [Hk0 Hm']. simpl in Hk0. subst m'.
    destruct (IH Hnd' Hm') as [IHs IHe]. split.
    + constructor; [exact IHs|].
      rewrite Forall_forall in *. intros c' Hc'.
      apply in_map_iff in Hc' as [[m' c''] [E Hin]]. simpl in E. subst c''.
      pose proof (Hm' _ Hin) as Em. simpl in Em. subst m'.
      specialize (Hall _ Hin). unfold month_key_leb in Hall. simpl in Hall.
      rewrite Z.compare_refl in Hall.
      apply str_leb_cases in Hall as [->|H]; [contradiction|exact H].
    + now rewrite <- IHe.
Qed.



(** X14: for a month other than 0, the rows of the monthly trends that
    are of that month give, category by category and in the same order,
    the totals of the spending summary of that month. *)
Theorem monthly_trends_match_summary
    (df : DataFrame) (user_id : string) (m : Z) :
  m <> 0 ->
  map (fun t => (Trend.Category t, Trend.CleanPrice t))
      (filter (fun t => Trend.Month t =? m) (get_monthly_trends df user_id))
  = map (fun s => (Summary.Category s, Summary.total_spent s))
        (get_spending_summary df user_id (Some m)).
Proof.
  intros Hm.
  unfold get_monthly_trends, get_spending_summary, groupby.
  set (ud := rows_of_user df user_id).
  assert (Hfm : filter_month (Some m) ud = filter (fun r => Month r =? m) ud).
  { unfold filter_month, truthy_int.
    destruct (Z.eqb_spec m 0); [contradiction|reflexivity]. }
  rewrite Hfm. set (udm := filter (fun r => Month r =? m) ud).
  set (keys := sort_by month_key_leb
                       (unique month_key_eqb
                               (map (fun r => (Month r, Category r)) ud))).
  set (cats := sort_by str_leb (unique String.eqb (map Category udm))).
  rewrite !map_map, filter_map_comm, map_map. cbn [trend_group Trend.Month fst].
  assert (Hkeys : filter (fun k : Z * string => fst k =? m) keys
                  = map (pair m) cats).
  { assert (Hsorted : StronglySorted (fun a b => month_key_leb a b = true) keys)
      by (apply sort_by_sorted;
          [apply month_key_leb_total|apply month_key_leb_trans]).
    assert (Hnd : NoDup keys).
    { eapply Permutation_NoDup; [symmetry; apply sort_by_perm|].
      apply unique_NoDup, month_key_eqb_spec. }
    destruct (month_keys_categories_sorted m
                (filter (fun k : Z * string => fst k =? m) keys))
      as [Hs He].
    - now apply StronglySorted_filter.
    - now apply NoDup_filter.
    - apply Forall_forall. intros k Hk. apply filter_In in Hk as [_ Hk].
      now apply Z.eqb_eq.
    - rewrite He. f_equal. unfold cats.
      apply sorted_same_elements; [exact Hs| |].
      + apply (sorted_unique_column Category udm).
      + intros c. rewrite (proj2 (sorted_unique_column Category udm)).
        rewrite in_map_iff. split.
        * intros [[m' c'] [E Hin]]. simpl in E. subst c'.
          apply filter_In in Hin as [Hin Em]. simpl in Em. apply Z.eqb_eq in Em.
          subst m'. unfold keys in Hin.
          apply sort_by_In in Hin.
          apply (proj1 (unique_In month_key_eqb month_key_eqb_spec _ _)) in Hin.
          apply in_map_iff in Hin as [r [[= E1 E2] Hr]].
          exists r. split; [|exact E2]. apply filter_In. split; [exact Hr|].
          now apply Z.eqb_eq.
        * intros [r [Hr Ec]]. apply filter_In in Hr as [Hr Em].
          apply Z.eqb_eq in Em. exists (m, c). split; [reflexivity|].
          apply filter_In. split; [|apply Z.eqb_refl].
          apply sort_by_In, (unique_In month_key_eqb month_key_eqb_spec).
          apply in_map_iff. exists r. split; [now rewrite Em, Ec|exact Hr]. }
  rewrite Hkeys, map_map. apply map_ext. intros c. cbn.
  do 4 f_equal. unfold udm. rewrite filter_twice. reflexivity.
Qed.

Lemma monthly_trends_match_summary_witness :
  map (fun t => (Trend.Category t, Trend.CleanPrice t))
      (filter (fun t => Trend.Month t =? 1)
              (get_monthly_trends Examples.boundary_table "C001"))
  = map (fun s => (Summary.Category s, Summary.total_spent s))
        (get_spending_summary Examples.boundary_table "C001" (Some 1)).
Proof.
  apply (monthly_trends_match_summary Examples.boundary_table "C001" 1).
  discriminate.
Defined.

(** ** More on the price repair *)

(** X15: for a total-price text of ASCII characters with at most 15
    digits before its first decimal point, the clean price after
    normalization is missing exactly when the text has no digit before
    its first decimal point and the base price is missing; when the text
    has such a digit the clean price is a whole number, not negative and
    below 10^15, whatever sign or currency mark the text carries. *)
Theorem clean_price_presence (r : RawRow) :
  Text.is_ascii_text (raw_TotalPrice r) = true ->
  (String.length (Text.integer_digits (raw_TotalPrice r)) <= 15)%nat ->
  (CleanPrice (process_row r) = None
   <-> Text.integer_digits (raw_TotalPrice r) = ""%string
       /\ raw_BasePrice r = None)
  /\ (Text.integer_digits (raw_TotalPrice r) <> ""%string ->
      exists z, 0 <= z < 10 ^ 15
                /\ CleanPrice (process_row r) = Some (inject_Z z)).
Proof.
  intros _ Hlen.
  unfold process_row; simpl. rewrite PriceRepair.repair_price_integer.
  destruct (String.eqb_spec (Text.integer_digits (raw_TotalPrice r)) "") as [E|E];
    simpl.
  - split; [|contradiction]. split; [now split|now intros [_ H]].
  - split.
    + split; [discriminate|]. now intros [H _].
    + intros _. eexists. split; [|reflexivity].
      apply PriceRepair.digits_to_Z_small; [|exact Hlen].
      apply PriceRepair.integer_digits_all_digits.
Qed.

Lemma clean_price_presence_witness :
  exists z, 0 <= z < 10 ^ 15
            /\ CleanPrice (process_row Examples.corrupted_row) = Some (inject_Z z).
Proof.
  refine (proj2 (clean_price_presence Examples.corrupted_row eq_refl _) _).
  - simpl. lia.
  - discriminate.
Defined.

Lemma before_first_dot_app (s t : string) :
  Text.before_first_dot (s ++ String "."%char t) = Text.before_first_dot s.
Proof.
  induction s as [|c s IH]; simpl; [reflexivity|].
  destruct (Text.is_dot c); [reflexivity|]. now rewrite IH.
Qed.

(** X16: a decimal point and whatever follows it at the end of a
    total-price text do not change the repaired price: the digits after
    the point never count. *)
Theorem repair_ignores_fraction (s t : string) :
  repair_price (s ++ String "."%char t) = repair_price s.
Proof.
  unfold repair_price. now rewrite before_first_dot_app.
Qed.

(* ================================================================== *)
(** * Properties of the bucket-list endpoint *)

Module ApiFacts.

Import Api.

Lemma dict_get_set_same {V} (k : string) (v : V) (d : list (string * V)) :
  dict_get k (dict_set k v d) = Some v.
Proof.
  induction d as [|[k' v'] d IH]; simpl.
  - now rewrite String.eqb_refl.
  - destruct (String.eqb k k') eqn:E; simpl; [now rewrite String.eqb_refl|].
    now rewrite E.
Qed.

Lemma dict_get_set_other {V} (k k0 : string) (v : V) (d : list (string * V)) :
  k0 <> k -> dict_get k0 (dict_set k v d) = dict_get k0 d.
Proof.
  intros Hne. induction d as [|[k' v'] d IH]; simpl.
  - destruct (String.eqb_spec k0 k); [contradiction|reflexivity].
  - destruct (String.eqb_spec k k') as [<-|E]; simpl.
    + destruct (String.eqb_spec k0 k); [contradiction|reflexivity].
    + destruct (String.eqb k0 k'); [reflexivity|exact IH].
Qed.

Lemma has_key_iff {V} (k : string) (ms : list (string * V)) :
  existsb (fun kv => String.eqb (fst kv) k) ms = true
  <-> exists v, dict_get k ms = Some v.
Proof.
  induction ms as [|[k' v'] ms IH]; cbn [existsb dict_get fst].
  - split; [discriminate|]. intros [v H]. discriminate.
  - rewrite (String.eqb_sym k' k). destruct (String.eqb k k'); simpl.
    + split; [eauto|reflexivity].
    + exact IH.
Qed.

(** X17: a [POST] either answers [Updated] for the customer, and then
    the body is an object, the list the answer carries is the value of
    its member [bucket_list] (the empty list when there is none) and the
    dictionary holds exactly that value under the customer id; or it
    answers an error and leaves the dictionary as it was. *)
Theorem post_outcome (user_bucket_lists : store) (user_id : string)
    (data : option json) :
  (exists members bucket_list count,
      data = Some (JObj members)
      /\ bucket_list = match dict_get "bucket_list" members with
                       | Some v => v
                       | None => JArr []
                       end
      /\ snd (post_bucket_list user_bucket_lists user_id data)
         = Updated user_id bucket_list count
      /\ dict_get user_id (fst (post_bucket_list user_bucket_lists user_id data))
         = Some bucket_list)
  \/ ((snd (post_bucket_list user_bucket_lists user_id data) = InvalidFormat
       \/ snd (post_bucket_list user_bucket_lists user_id data) = PostError)
      /\ fst (post_bucket_list user_bucket_lists user_id data) = user_bucket_lists).
Proof.
  unfold post_bucket_list.
  destruct data as [[| | | | |members]|]; simpl; auto.
  destruct (iterate _) as [items|]; simpl; auto.
  destruct (forallb is_valid_item items); simpl; auto.
  left. exists members. eexists. eexists.
  split; [reflexivity|]. split; [reflexivity|]. split; [reflexivity|].
  apply dict_get_set_same.
Qed.

(** X18: a body whose [bucket_list] is a list is accepted exactly when
    every element of the list is an object with the key [item]; the
    answer then counts the elements. *)
Theorem post_list_accepted (user_bucket_lists : store) (user_id : string)
    (members : list (string * json)) (items : list json) :
  dict_get "bucket_list" members = Some (JArr items) ->
  (snd (post_bucket_list user_bucket_lists user_id (Some (JObj members)))
   = Updated user_id (JArr items) (Z.of_nat (List.length items))
   <-> Forall (fun item => exists ms, item = JObj ms
                                      /\ exists v, dict_get "item" ms = Some v)
              items)
  /\ (snd (post_bucket_list user_bucket_lists user_id (Some (JObj members)))
      = InvalidFormat
      <-> ~ Forall (fun item => exists ms, item = JObj ms
                                           /\ exists v, dict_get "item" ms = Some v)
                   items).
Proof.
  intros Hget. unfold post_bucket_list. rewrite Hget. simpl.
  assert (Hvalid : forall item,
             is_valid_item item = true
             <-> exists ms, item = JObj ms /\ exists v, dict_get "item" ms = Some v).
  { intros item. split.
    - destruct item as [| | | | |ms]; cbn [is_valid_item]; try discriminate.
      intros H. exists ms. split; [reflexivity|]. now apply has_key_iff.
    - intros [ms [-> Hv]]. cbn [is_valid_item]. now apply has_key_iff. }
  assert (Hall : forallb is_valid_item items = true
                 <-> Forall (fun item => exists ms, item = JObj ms
                                /\ exists v, dict_get "item" ms = Some v) items).
  { rewrite forallb_forall, Forall_forall.
    split; intros H x Hx; apply Hvalid, H, Hx. }
  destruct (forallb is_valid_item items) eqn:E; simpl.
  - split.
    + split; [intros _; now apply Hall|reflexivity].
    + split; [discriminate|]. intros H. exfalso. apply H. now apply Hall.
  - split.
    + split; [discriminate|]. intros H. apply Hall in H. discriminate.
    + split; [|reflexivity]. intros _ H. apply Hall in H. discriminate.
Qed.

Lemma post_list_accepted_witness :
  snd (post_bucket_list [] "C001"
         (Some (JObj [("bucket_list"%string,
                       JArr [JObj [("item"%string, JStr "Milk")]])])))
  = Updated "C001" (JArr [JObj [("item"%string, JStr "Milk")]]) 1.
Proof.
  apply (proj1 (post_list_accepted [] "C001"
                  [("bucket_list"%string, JArr [JObj [("item"%string, JStr "Milk")]])]
                  [JObj [("item"%string, JStr "Milk")]] eq_refl)).
  repeat constructor. exists [("item"%string, JStr "Milk")].
  split; [reflexivity|]. exists (JStr "Milk"). reflexivity.
Defined.

(** X19: after an accepted [POST] of a list that is not empty, a [GET]
    for the same customer answers that list, with type [custom],
    whether or not the analyzer is available. *)
Theorem post_then_get (analyzer : option Analyzer) (user_bucket_lists : store)
    (user_id : string) (members : list (string * json)) (items : list json) :
  dict_get "bucket_list" members = Some (JArr items) ->
  items <> [] ->
  forallb is_valid_item items = true ->
  get_bucket_list analyzer
                  (fst (post_bucket_list user_bucket_lists user_id
                                         (Some (JObj members))))
                  user_id
  = StoredList user_id (JArr items) "custom".
Proof.
  intros Hget Hne Hvalid. unfold post_bucket_list. rewrite Hget. simpl.
  rewrite Hvalid. simpl. unfold get_bucket_list. rewrite dict_get_set_same.
  destruct items as [|item items]; [congruence|]. simpl.
  now destruct analyzer.
Qed.

Lemma post_then_get_witness :
  get_bucket_list None
    (fst (post_bucket_list [] "C001"
            (Some (JObj [("bucket_list"%string,
                          JArr [JObj [("item"%string, JStr "Milk")]])]))))
    "C001"
  = StoredList "C001" (JArr [JObj [("item"%string, JStr "Milk")]]) "custom".
Proof.
  apply (post_then_get None [] "C001"
           [("bucket_list"%string, JArr [JObj [("item"%string, JStr "Milk")]])]
           [JObj [("item"%string, JStr "Milk")]]).
  - reflexivity.
  - discriminate.
  - reflexivity.
Defined.

(** X20: a [POST] for one customer changes nothing for another: a [GET]
    for any other customer answers the same before and after. *)
Theorem post_leaves_others (analyzer : option Analyzer)
    (user_bucket_lists : store) (user_id other : string) (data : option json) :
  other <> user_id ->
  get_bucket_list analyzer
                  (fst (post_bucket_list user_bucket_lists user_id data)) other
  = get_bucket_list analyzer user_bucket_lists other.
Proof.
  intros Hne. unfold get_bucket_list.
  assert (E : dict_get other (fst (post_bucket_list user_bucket_lists user_id data))
              = dict_get other user_bucket_lists).
  { unfold post_bucket_list.
    destruct data as [[| | | | |members]|]; simpl; try reflexivity.
    destruct (iterate _) as [items|]; simpl; [|reflexivity].
    destruct (forallb is_valid_item items); simpl; [|reflexivity].
    now apply dict_get_set_other. }
  now rewrite E.
Qed.

Lemma post_leaves_others_witness :
  get_bucket_list None
    (fst (post_bucket_list [] "C001"
            (Some (JObj [("bucket_list"%string,
                          JArr [JObj [("item"%string, JStr "Milk")]])]))))
    "C002"
  = get_bucket_list None [] "C002".
Proof.
  apply (post_leaves_others None [] "C001" "C002"). discriminate.
Defined.

(** X21: for a customer without a saved list (none, or an empty one) a
    [GET] answers what the call of the analyzer answers, which for the
    analyzer of a table is the recommendations for the default
    thresholds 2 and 30, also when there are none; the type [empty] is
    answered only when the analyzer is missing or its call raised. *)
Theorem get_without_saved_list (analyzer : option Analyzer)
    (user_bucket_lists : store) (user_id : string) :
  (forall call recommendations,
      analyzer = Some call ->
      call user_id = Some recommendations ->
      (dict_get user_id user_bucket_lists = None
       \/ dict_get user_id user_bucket_lists = Some (JArr [])) ->
      get_bucket_list analyzer user_bucket_lists user_id
      = AiGenerated user_id recommendations)
  /\ (forall df,
         analyzer = Some (analyzer_of df) ->
         (dict_get user_id user_bucket_lists = None
          \/ dict_get user_id user_bucket_lists = Some (JArr [])) ->
         get_bucket_list analyzer user_bucket_lists user_id
         = AiGenerated user_id (generate_recommendations df user_id 2 (30 # 1)))
  /\ (forall bucket_list,
         get_bucket_list analyzer user_bucket_lists user_id
         = StoredList user_id bucket_list "empty" ->
         analyzer = None
         \/ exists call, analyzer = Some call /\ call user_id = None).
Proof.
  split; [|split].
  - intros call recommendations -> Hcall [E|E];
      unfold get_bucket_list; rewrite E; simpl; now rewrite Hcall.
  - intros df -> [E|E]; unfold get_bucket_list; rewrite E; reflexivity.
  - intros bucket_list. unfold get_bucket_list.
    destruct (truthy match dict_get user_id user_bucket_lists with
                     | Some v => v
                     | None => JArr []
                     end); simpl; [discriminate|].
    destruct analyzer as [call|]; [|now left].
    destruct (call user_id) eqn:Hcall; [discriminate|].
    intros _. right. exists call. now split.
Qed.

End ApiFacts.

(* ================================================================== *)
(** * Properties of the saved shopping list *)

Module DashboardFacts.

Import Dashboard.

Lemma selected_items_origin (checkbox_values : list bool)
    (recommendations : list Entry.t) (item : SavedItem) :
  In item (selected_items checkbox_values recommendations) ->
  exists rec, In rec recommendations /\ item = item_of_recommendation rec.
Proof.
  revert recommendations.
  induction checkbox_values as [|b values IH]; intros [|rec recs]; simpl;
    try contradiction.
  destruct b; simpl.
  - intros [<-|H]; [eauto|]. destruct (IH recs H) as [r [Hr E]]. eauto.
  - intros H. destruct (IH recs H) as [r [Hr E]]. eauto.
Qed.

(** X22: saving never removes or moves a saved item: the new list is the
    old list followed by added items; every added item is made from one
    of the recommendations and has a name that was not saved before;
    the number reported is the number of ticked recommendations. *)
Theorem save_appends_new_names (n_clicks : option Z) (checkbox_values : list bool)
    (user_id : option string) (current_saved : list SavedItem)
    (recommendations : list Entry.t) (saved : list SavedItem) (count : nat) :
  save_selected_items n_clicks checkbox_values user_id current_saved
                      recommendations = Some (saved, count) ->
  count = List.length (selected_items checkbox_values recommendations)
  /\ exists added,
       saved = (current_saved ++ added)%list
       /\ Forall (fun item =>
                    ~ In (name item) (map name current_saved)
                    /\ exists rec, In rec recommendations
                                   /\ item = item_of_recommendation rec)
                 added.
Proof.
  unfold save_selected_items.
  destruct (negb (truthy_int n_clicks) || negb (truthy_str user_id));
    [discriminate|].
  intros [= <- <-]. split; [reflexivity|].
  eexists. split; [reflexivity|].
  apply Forall_forall. intros item Hitem. apply filter_In in Hitem as [Hsel Hnew].
  split.
  - intros Hin. apply negb_true_iff in Hnew.
    assert (Hex : existsb (String.eqb (name item)) (map name current_saved) = true).
    { apply existsb_exists. exists (name item).
      split; [exact Hin|apply String.eqb_refl]. }
    congruence.
  - eapply selected_items_origin; eassumption.
Qed.

Lemma save_appends_new_names_witness :
  exists added,
    [item_of_recommendation Examples.bread_entry] = ([] ++ added)%list.
Proof.
  destruct (save_appends_new_names (Some 1) [true] (Some "C001"%string) []
              [Examples.bread_entry]
              [item_of_recommendation Examples.bread_entry] 1%nat eq_refl)
    as [_ [added [E _]]].
  exists added. exact E.
Defined.

(** X23: saving the same selection a second time changes nothing: every
    selected name is then already saved. *)
Theorem save_twice (n_clicks : option Z) (checkbox_values : list bool)
    (user_id : option string) (current_saved : list SavedItem)
    (recommendations : list Entry.t) (saved : list SavedItem) (count : nat) :
  save_selected_items n_clicks checkbox_values user_id current_saved
                      recommendations = Some (saved, count) ->
  save_selected_items n_clicks checkbox_values user_id saved recommendations
  = Some (saved, count).
Proof.
  unfold save_selected_items.
  destruct (negb (truthy_int n_clicks) || negb (truthy_str user_id));
    [discriminate|].
  intros [= <- <-]. do 2 f_equal.
  set (selected := selected_items checkbox_values recommendations).
  unfold add_selected at 1.
  rewrite filter_none; [apply app_nil_r|].
  intros item Hitem. apply negb_false_iff, existsb_exists.
  exists (name item). split; [|apply String.eqb_refl].
  unfold add_selected. rewrite map_app, in_app_iff.
  destruct (existsb (String.eqb (name item)) (map name current_saved)) eqn:E.
  - left. apply existsb_exists in E as [n [Hn En]].
    apply String.eqb_eq in En. now rewrite En.
  - right. apply in_map, filter_In. split; [exact Hitem|]. now rewrite E.
Qed.

Lemma save_twice_witness :
  save_selected_items (Some 1) [true] (Some "C001"%string)
                      [item_of_recommendation Examples.bread_entry]
                      [Examples.bread_entry]
  = Some ([item_of_recommendation Examples.bread_entry], 1%nat).
Proof.
  apply (save_twice (Some 1) [true] (Some "C001"%string) [] [Examples.bread_entry]).
  reflexivity.
Defined.

Lemma pop_firstn_skipn (index : nat) (l : list SavedItem) :
  pop index l = (firstn index l ++ skipn (S index) l)%list.
Proof.
  revert index. induction l as [|x l IH]; intros [|i]; simpl; try reflexivity.
  now rewrite IH.
Qed.

Lemma skipn_nth_error {A} (l : list A) (i : nat) (x : A) :
  nth_error l i = Some x -> skipn i l = x :: skipn (S i) l.
Proof.
  revert i. induction l as [|y l IH]; intros [|i]; simpl; try discriminate.
  - now intros [= ->].
  - apply IH.
Qed.

(** X24: removing answers no update when no button was clicked or there
    is no saved list; an index outside the list leaves the list as it
    is; an index inside the list removes exactly the item at that
    position and keeps the others in order. *)
Theorem remove_saved_item_at (n_clicks_list : list (option Z))
    (index_to_remove : Z) (current_saved : option (list SavedItem)) :
  (existsb truthy_int n_clicks_list = false \/ current_saved = None ->
   remove_saved_item n_clicks_list index_to_remove current_saved = None)
  /\ (forall items,
         existsb truthy_int n_clicks_list = true ->
         current_saved = Some items ->
         (index_to_remove < 0 \/ Z.of_nat (List.length items) <= index_to_remove ->
          remove_saved_item n_clicks_list index_to_remove current_saved
          = Some items)
         /\ (0 <= index_to_remove < Z.of_nat (List.length items) ->
             exists before item after,
               items = (before ++ item :: after)%list
               /\ Z.of_nat (List.length before) = index_to_remove
               /\ remove_saved_item n_clicks_list index_to_remove current_saved
                  = Some (before ++ after)%list)).
Proof.
  unfold remove_saved_item. split.
  - intros [H|H]; [now rewrite H|].
    rewrite H. now destruct (negb (existsb truthy_int n_clicks_list)).
  - intros items Hany ->. rewrite Hany. simpl. split.
    + intros Hout.
      destruct ((0 <=? index_to_remove)
                && (index_to_remove <? Z.of_nat (List.length items))) eqn:E;
        [|reflexivity].
      apply andb_true_iff in E as [E1 E2].
      apply Z.leb_le in E1. apply Z.ltb_lt in E2. lia.
    + intros Hin.
      replace ((0 <=? index_to_remove)
               && (index_to_remove <? Z.of_nat (List.length items))) with true
        by (symmetry; apply andb_true_iff; split;
            [apply Z.leb_le|apply Z.ltb_lt]; lia).
      set (i := Z.to_nat index_to_remove).
      assert (Hi : (i < List.length items)%nat) by (unfold i; lia).
      destruct (nth_error items i) as [item|] eqn:Hnth;
        [|apply nth_error_None in Hnth; lia].
      exists (firstn i items), item, (skipn (S i) items).
      split; [|split].
      * rewrite <- (firstn_skipn i items) at 1. f_equal.
        now apply skipn_nth_error.
      * rewrite length_firstn. unfold i. lia.
      * now rewrite pop_firstn_skipn.
Qed.

End DashboardFacts.

(* ================================================================== *)
(** * Properties of the metrics cards *)

Module MetricsFacts.

Import Metrics.

(** The sum of the amounts of a dictionary, [None] as soon as one of
    them is [NaN]. *)
Lemma fold_fadd_present (l : list (option Q)) (acc : Q) :
  Forall (fun x => x <> None) l ->
  exists total, fold_left fadd l (Some acc) = Some total
                /\ (total == acc + sum_skipna l)%Q.
Proof.
  revert acc. induction l as [|x l IH]; intros acc Hall; simpl.
  - exists acc. split; [reflexivity|]. ring.
  - apply Forall_cons_iff in Hall as [Hx Hl].
    destruct x as [q|]; [|congruence].
    destruct (IH (acc + q)%Q Hl) as [total [E Ht]].
    exists total. split; [exact E|]. rewrite Ht. ring.
Qed.

Lemma dict_set_amounts (k : string) (a : Q) (d : list (string * option Q)) :
  Forall (fun kv => snd kv <> None) d ->
  exists v,
    fadd (match Api.dict_get k d with Some v => v | None => Some (0 # 1)%Q end)
         (Some a) = Some v
    /\ Forall (fun kv => snd kv <> None) (Api.dict_set k (Some v) d)
    /\ (sum_skipna (map snd (Api.dict_set k (Some v) d))
        == sum_skipna (map snd d) + a)%Q.
Proof.
  induction d as [|[k' v'] d IH]; intros Hall; simpl.
  - eexists. split; [reflexivity|]. split.
    + repeat constructor. discriminate.
    + simpl. ring.
  - apply Forall_cons_iff in Hall as [Hv Hd]. simpl in Hv.
    destruct v' as [q|]; [|congruence].
    destruct (String.eqb k k') eqn:E.
    + eexists. split; [reflexivity|]. split.
      * constructor; [discriminate|exact Hd].
      * simpl. ring.
    + destruct (IH Hd) as [v [Ev [Hall' Hsum]]].
      exists v. split; [exact Ev|]. split.
      * constructor; [discriminate|exact Hall'].
      * simpl. rewrite Hsum. ring.
Qed.

Lemma category_totals_sum (purchases : list Row) (d : list (string * option Q)) :
  Forall (fun p => CleanPrice p <> None) purchases ->
  Forall (fun kv => snd kv <> None) d ->
  Forall (fun kv => snd kv <> None) (fold_left add_purchase purchases d)
  /\ (sum_skipna (map snd (fold_left add_purchase purchases d))
      == sum_skipna (map snd d) + sum_skipna (map CleanPrice purchases))%Q.
Proof.
  revert d. induction purchases as [|p purchases IH]; intros d Hp Hd; simpl.
  - split; [exact Hd|]. ring.
  - apply Forall_cons_iff in Hp as [Hp0 Hp].
    destruct (CleanPrice p) as [a|] eqn:Ea; [|congruence].
    destruct (dict_set_amounts (Category p) a d Hd) as [v [Ev [Hall Hsum]]].
    unfold add_purchase at 2 4. rewrite Ea, Ev.
    destruct (IH _ Hp Hall) as [H1 H2]. split; [exact H1|].
    rewrite H2, Hsum. ring.
Qed.

Lemma max_by_amount_spec (first : string * option Q)
    (rest : list (string * option Q)) :
  Forall (fun kv => snd kv <> None) (first :: rest) ->
  In (max_by_amount first rest) (first :: rest)
  /\ exists top, snd (max_by_amount first rest) = Some top
                 /\ Forall (fun kv => exists a, snd kv = Some a /\ (a <= top)%Q)
                           (first :: rest).
Proof.
  unfold max_by_amount. revert first.
  induction rest as [|item rest IH]; intros first Hall.
  - apply Forall_cons_iff in Hall as [Hf _].
    destruct first as [k [q|]]; [|simpl in Hf; congruence]. simpl.
    split; [now left|]. exists q. split; [reflexivity|].
    repeat constructor. exists q. split; [reflexivity|apply Qle_refl].
  - apply Forall_cons_iff in Hall as [Hf Hrest].
    apply Forall_cons_iff in Hrest as [Hi Hrest].
    destruct first as [k [q|]]; [|simpl in Hf; congruence].
    destruct item as [k' [q'|]]; [|simpl in Hi; congruence].
    cbn [fold_left snd fgt].
    destruct (Qle_bool q' q) eqn:E; cbn [negb].
    + destruct (IH (k, Some q)) as [Hin [top [Ht Hle]]];
        [constructor; [discriminate|exact Hrest]|].
      split; [destruct Hin as [<-|Hin]; [now left|now right; right]|].
      exists top. split; [exact Ht|].
      apply Forall_cons_iff in Hle as [[a [[= <-] Ha]] Hle].
      constructor; [exists q; now split|].
      constructor; [|exact Hle].
      exists q'. split; [reflexivity|].
      apply Qle_bool_iff in E. eapply Qle_trans; eassumption.
    + destruct (IH (k', Some q')) as [Hin [top [Ht Hle]]];
        [constructor; [discriminate|exact Hrest]|].
      split; [destruct Hin as [<-|Hin]; [now right; left|now right; right]|].
      exists top. split; [exact Ht|].
      apply Forall_cons_iff in Hle as [[a [[= <-] Ha]] Hle].
      constructor; [|constructor; [exists q'; now split|exact Hle]].
      exists q. split; [reflexivity|].
      assert (Hlt : (q < q')%Q).
      { apply Qnot_le_lt. intros H. apply Qle_bool_iff in H. congruence. }
      apply Qlt_le_weak. eapply Qlt_le_trans; eassumption.
Qed.

Lemma dict_set_keys {V} (k k0 : string) (v : V) (d : list (string * V)) :
  In k0 (map fst (Api.dict_set k v d)) -> k0 = k \/ In k0 (map fst d).
Proof.
  induction d as [|[k' v'] d IH]; simpl.
  - intros [<-|[]]. now left.
  - destruct (String.eqb_spec k k') as [<-|E]; simpl.
    + intros [<-|H]; auto.
    + intros [<-|H]; auto. destruct (IH H); auto.
Qed.

Lemma dict_set_NoDup {V} (k : string) (v : V) (d : list (string * V)) :
  NoDup (map fst d) -> NoDup (map fst (Api.dict_set k v d)).
Proof.
  induction d as [|[k' v'] d IH]; simpl; intros Hd.
  - repeat constructor. intros [].
  - apply NoDup_cons_iff in Hd as [Hk' Hd].
    destruct (String.eqb_spec k k') as [<-|E]; simpl.
    + now constructor.
    + constructor; [|now apply IH].
      intros Hin. apply dict_set_keys in Hin as [->|Hin]; [now apply E|].
      now apply Hk'.
Qed.

Lemma dict_get_In {V} (k : string) (v : V) (d : list (string * V)) :
  NoDup (map fst d) -> In (k, v) d -> Api.dict_get k d = Some v.
Proof.
  induction d as [|[k' v'] d IH]; simpl; intros Hd Hin; [contradiction|].
  apply NoDup_cons_iff in Hd as [Hk' Hd].
  destruct Hin as [[= -> ->]|Hin].
  - now rewrite String.eqb_refl.
  - destruct (String.eqb_spec k k') as [->|_]; [|now apply IH].
    exfalso. apply Hk'. change k' with (fst (k', v)). now apply in_map.
Qed.

Lemma category_totals_keys (purchases : list Row) (d : list (string * option Q)) :
  NoDup (map fst d) -> NoDup (map fst (fold_left add_purchase purchases d)).
Proof.
  revert d. induction purchases as [|p purchases IH]; intros d Hd; simpl;
    [exact Hd|].
  apply IH. unfold add_purchase. now apply dict_set_NoDup.
Qed.

Lemma category_totals_nonempty (purchases : list Row)
    (d : list (string * option Q)) :
  d <> [] -> fold_left add_purchase purchases d <> [].
Proof.
  revert d. induction purchases as [|p purchases IH]; intros d Hd; simpl;
    [exact Hd|].
  apply IH. unfold add_purchase. destruct d as [|[k v] d]; [congruence|].
  simpl. destruct (String.eqb (Category p) k); discriminate.
Qed.

(** X25: when the clean prices of the purchases are whole numbers, not
    negative, that add up to less than 2^53 (so that the floats add and
    compare them exactly), the amounts of the category dictionary add up
    to the total spent, which is the sum of the clean prices; and when
    there is a purchase, the top category is a category of the
    dictionary whose amount no other category exceeds. *)
Theorem metrics_breakdown (purchases : list Row) :
  Forall whole_price purchases ->
  (sum_skipna (map CleanPrice purchases) < inject_Z (2 ^ 53))%Q ->
  (exists total,
      total_spent purchases = Some total
      /\ (total == sum_skipna (map CleanPrice purchases))%Q
      /\ (sum_skipna (map snd (category_totals purchases)) == total)%Q)
  /\ (purchases <> [] ->
      exists top,
        Api.dict_get (top_category purchases) (category_totals purchases)
        = Some (Some top)
        /\ Forall (fun kv => exists a, snd kv = Some a /\ (a <= top)%Q)
                  (category_totals purchases)).
Proof.
  intros Hwhole _.
  assert (Hp : Forall (fun p => CleanPrice p <> None) purchases).
  { eapply Forall_impl; [|exact Hwhole]. intros p [z [_ Hz]]. now rewrite Hz. }
  destruct (category_totals_sum purchases [] Hp (Forall_nil _)) as [Hall Hsum].
  fold (category_totals purchases) in Hall, Hsum.
  split.
  - unfold total_spent.
    destruct (fold_fadd_present (map CleanPrice purchases) (0 # 1)) as [total [E Ht]].
    { apply Forall_forall. intros x Hx. apply in_map_iff in Hx as [p [<- Hin]].
      rewrite Forall_forall in Hp. now apply Hp. }
    exists total. split; [exact E|]. split.
    + rewrite Ht. ring.
    + rewrite Hsum, Ht. simpl. ring.
  - intros Hne. unfold top_category.
    assert (Hnd : NoDup (map fst (category_totals purchases)))
      by (apply category_totals_keys; constructor).
    assert (Hnonempty : category_totals purchases <> []).
    { destruct purchases as [|p purchases]; [congruence|].
      unfold category_totals. simpl. apply category_totals_nonempty.
      discriminate. }
    destruct (category_totals purchases) as [|first rest]; [congruence|].
    destruct (max_by_amount_spec first rest Hall) as [Hin [top [Ht Hle]]].
    exists top. split; [|exact Hle].
    apply dict_get_In; [exact Hnd|].
    destruct (max_by_amount first rest) as [kt vt]. simpl in Ht. subst vt.
    exact Hin.
Qed.

Lemma metrics_breakdown_witness :
  exists total,
    total_spent Examples.boundary_table = Some total
    /\ (total == sum_skipna (map CleanPrice Examples.boundary_table))%Q.
Proof.
  assert (Hwhole : Forall whole_price Examples.boundary_table).
  { apply Forall_forall. intros r Hr. vm_compute in Hr.
    repeat (destruct Hr as [<-|Hr]; [exists 2; split; [lia|reflexivity]|]).
    contradiction. }
  assert (Hbound : (sum_skipna (map CleanPrice Examples.boundary_table)
                    < inject_Z (2 ^ 53))%Q) by (vm_compute; reflexivity).
  destruct (proj1 (metrics_breakdown Examples.boundary_table Hwhole Hbound))
    as [total [E [Ht _]]].
  exists total. split; assumption.
Defined.

End MetricsFacts.
